(** * Weather Fetcher & Saver: a shallow embedding of [WeatherApp/weather_fetcher.py]

    The script resolves a city name through a geocoding service, fetches the
    current weather, prints a summary and appends one row to a CSV log.  The
    Python functions are embedded as Rocq functions of the same name:

    - Python values that reach the script (decoded JSON, [None], strings) are
      the inductive type [value]; a [dict] is a [gmap] with string keys; a
      [string] stands for a [str] whose characters are code points below 256;
    - an exception is a value of [exn] carrying its class, and [isinstance]
      follows the method resolution order of that class;
    - code that can raise returns a [result];
    - [main] runs in a small state-and-exception monad: the state holds the
      files on disk and the trace of console and network events, the
      environment [env] supplies what the outside world answers. *)

From Stdlib Require Import ZArith String Ascii List DecimalString.
From Stdlib Require Import DecimalPos DecimalZ.
From Stdlib Require Import Floats.SpecFloat.
From stdpp Require Import gmap strings list fin_maps.

#[local] Set Warnings "-register-all".
#[local] Arguments String.append !_ _ / : simpl nomatch.
#[local] Open Scope string_scope.
#[local] Open Scope Z_scope.

(** ** Python values *)

(** A Python [float] is an IEEE-754 double, kept as sign, mantissa and binary
    exponent ([spec_float]); [value] has the shapes [json.loads] produces. *)
Inductive value : Type :=
| VNone
| VBool (b : bool)
| VInt (z : Z)
| VFloat (f : spec_float)
| VStr (s : string)
| VList (l : list value)
| VDict (d : gmap string value).

(** ** Exceptions *)

Inductive exn_class : Set :=
| BaseException | KeyboardInterrupt
| Exception
| AttributeError | KeyError | IndexError | TypeError | ValueError | OverflowError
| EOFError | OSError
| RequestException | HTTPError | ConnectionError | Timeout | JSONDecodeError.

#[global] Instance exn_class_eq_dec : EqDecision exn_class.
Proof. solve_decision. Defined.

(** The method resolution order of each class: [requests.RequestException]
    derives from [IOError] (an alias of [OSError]); [HTTPError],
    [ConnectionError] and [Timeout] derive from [RequestException];
    [KeyboardInterrupt] is not an [Exception].  [JSONDecodeError] is the
    class of [requests.exceptions], which [resp.json()] raises on a body that
    is not JSON (requests 2.27 and later): it derives from
    [RequestException], through [InvalidJSONError], and from [ValueError],
    through the class of the same name of the [json] module. *)
Definition mro (c : exn_class) : list exn_class :=
  match c with
  | BaseException => [BaseException]
  | KeyboardInterrupt => [KeyboardInterrupt; BaseException]
  | Exception => [Exception; BaseException]
  | AttributeError => [AttributeError; Exception; BaseException]
  | KeyError => [KeyError; Exception; BaseException]
  | IndexError => [IndexError; Exception; BaseException]
  | TypeError => [TypeError; Exception; BaseException]
  | ValueError => [ValueError; Exception; BaseException]
  | OverflowError => [OverflowError; Exception; BaseException]
  | EOFError => [EOFError; Exception; BaseException]
  | OSError => [OSError; Exception; BaseException]
  | RequestException => [RequestException; OSError; Exception; BaseException]
  | HTTPError => [HTTPError; RequestException; OSError; Exception; BaseException]
  | ConnectionError =>
      [ConnectionError; RequestException; OSError; Exception; BaseException]
  | Timeout => [Timeout; RequestException; OSError; Exception; BaseException]
  | JSONDecodeError =>
      [JSONDecodeError; RequestException; OSError; ValueError; Exception;
       BaseException]
  end.

Record exn : Type := mk_exn { exn_cls : exn_class; exn_msg : string }.

Definition isinstance (e : exn) (c : exn_class) : bool :=
  bool_decide (c ∈ mro (exn_cls e)).

Inductive result (A : Type) : Type :=
| Ok (a : A)
| Raise (e : exn).
Arguments Ok {A} a.
Arguments Raise {A} e.

Definition rbind {A B} (r : result A) (k : A → result B) : result B :=
  match r with
  | Ok a => k a
  | Raise e => Raise e
  end.

Notation "'try!' x <- r ; k" := (rbind r (fun x => k))
  (at level 10, x name, r at level 100, k at level 200, only parsing).

(** ** Strings *)

(** Characters the script and the [csv] module single out. *)
Definition LF : ascii := "010"%char.
Definition CR : ascii := "013"%char.
Definition DQUOTE : ascii := "034"%char.
Definition COMMA : ascii := ","%char.
Definition char (c : ascii) : string := String c EmptyString.

(** [sep.join(l)] *)
Fixpoint join (sep : string) (l : list string) : string :=
  match l with
  | [] => EmptyString
  | [s] => s
  | s :: l' => s +:+ sep +:+ join sep l'
  end.

(** [c.isspace()] on the code points below 256: a [string] stands for a
    Python [str] whose characters are all in that range. *)
Definition is_space (c : ascii) : bool :=
  let n := nat_of_ascii c in
  ((9 <=? n) && (n <=? 13) || (28 <=? n) && (n <=? 32)
   || (n =? 133) || (n =? 160))%nat.

Fixpoint lstrip (s : string) : string :=
  match s with
  | EmptyString => EmptyString
  | String c s' => if is_space c then lstrip s' else s
  end.

Fixpoint rstrip (s : string) : string :=
  match s with
  | EmptyString => EmptyString
  | String c s' =>
      match rstrip s' with
      | EmptyString => if is_space c then EmptyString else char c
      | t => String c t
      end
  end.

(** [s.strip()] *)
Definition strip (s : string) : string := rstrip (lstrip s).

Fixpoint all_chars (p : ascii → bool) (s : string) : bool :=
  match s with
  | EmptyString => true
  | String c s' => p c && all_chars p s'
  end.

(** ** Builtins *)

(** [str(n)] of an [int] when the conversion is allowed: the decimal
    digits, with a leading minus sign. *)
Definition str_int (z : Z) : string := NilZero.string_of_int (Z.to_int z).

(** The number of decimal digits of [z], the sign left out. *)
Definition int_digits (z : Z) : N :=
  N.of_nat (String.length (str_int (Z.abs z))).

(** The interpreter refuses to convert an [int] of more than
    [sys.get_int_max_str_digits()] digits to text (CPython 3.11 and later,
    and the security releases of 3.7 to 3.10 from September 2022 on).  The
    limit is 4300 unless the interpreter is started or set otherwise; 0
    turns it off, and no limit from 1 to 639 can be set. *)
Definition DEFAULT_MAX_STR_DIGITS : N := 4300.

Definition max_str_digits_message (max_str_digits : N) : string :=
  "Exceeds the limit (" +:+ str_int (Z.of_N max_str_digits)
    +:+ " digits) for integer string conversion; "
    +:+ "use sys.set_int_max_str_digits() to increase the limit".

(** [str(n)] under the limit [max_str_digits].  The JSON decoder is under the
    same limit when it reads a number, so the integers of a decoded payload
    are within it; an [int] from elsewhere need not be. *)
Definition str_int_limited (max_str_digits : N) (z : Z) : result string :=
  if ((0 <? max_str_digits) && (max_str_digits <? int_digits z))%N
  then Raise (mk_exn ValueError (max_str_digits_message max_str_digits))
  else Ok (str_int z).

(** The parts of the interpreter that no function of the script depends on in
    detail are a parameter: [repr] of floats and containers, and the parsers
    behind [int(s)] and [float(s)] ([None] when they raise). *)
Record runtime : Type := {
  repr : value → string;
  int_of_str : string → option Z;
  float_of_str : string → option spec_float;
  float_of_int : Z → option spec_float;
}.

(** Truthiness, as [not x] and [x or y] test it. *)
Definition truthy (v : value) : bool :=
  match v with
  | VNone => false
  | VBool b => b
  | VInt z => negb (z =? 0)
  | VFloat (S754_zero _) => false
  | VFloat _ => true
  | VStr s => negb (String.eqb s EmptyString)
  | VList l => negb (bool_decide (l = []))
  | VDict d => negb (bool_decide (size d = 0%nat))
  end.

(** [type(v).__name__], as error messages show it. *)
Definition type_name (v : value) : string :=
  match v with
  | VNone => "NoneType"
  | VBool _ => "bool"
  | VInt _ => "int"
  | VFloat _ => "float"
  | VStr _ => "str"
  | VList _ => "list"
  | VDict _ => "dict"
  end.

(** The integer a finite float truncates to (towards zero). *)
Definition trunc_float (s : bool) (m : positive) (e : Z) : Z :=
  let a := if 0 <=? e then Z.pos m * 2 ^ e else Z.pos m / 2 ^ (- e) in
  if s then - a else a.

(** ** Fixed-point formatting of floats *)

(** The integer nearest to [n / d], ties to the even one ([0 <= n], [0 < d]). *)
Definition round_half_even (n d : Z) : Z :=
  let q := n / d in
  match 2 * (n mod d) ?= d with
  | Lt => q
  | Gt => q + 1
  | Eq => if Z.even q then q else q + 1
  end.

(** [|x| * 10^4] rounded to an integer, for the finite [x = m * 2^e]:
    the conversion is correctly rounded on the exact binary value. *)
Definition scaled4 (m : positive) (e : Z) : Z :=
  if 0 <=? e then Z.pos m * 2 ^ e * 10000
  else round_half_even (Z.pos m * 10000) (2 ^ (- e)).

Definition digit (n : Z) : ascii := ascii_of_nat (48 + Z.to_nat n).

Definition pad4 (n : Z) : string :=
  String (digit (n / 1000)) (String (digit (n / 100 mod 10))
    (String (digit (n / 10 mod 10)) (String (digit (n mod 10)) EmptyString))).

Definition fixed4 (neg : bool) (n : Z) : string :=
  (if neg then "-" else EmptyString)
    +:+ str_int (n / 10000) +:+ "." +:+ pad4 (n mod 10000).

(** [f"{x:.4f}"] *)
Definition format_4f (x : spec_float) : string :=
  match x with
  | S754_zero s => fixed4 s 0
  | S754_finite s m e => fixed4 s (scaled4 m e)
  | S754_infinity s => if s then "-inf" else "inf"
  | S754_nan => "nan"
  end.

Definition is_finite (x : spec_float) : bool :=
  match x with
  | S754_zero _ | S754_finite _ _ _ => true
  | S754_infinity _ | S754_nan => false
  end.

Section Builtins.
Context (rt : runtime).

(** [str(v)], which is also what an f-string field [{v}] inserts; an
    integer is taken to be within the limit on digits, as those of a decoded
    payload are. *)
Definition py_str (v : value) : string :=
  match v with
  | VNone => "None"
  | VBool true => "True"
  | VBool false => "False"
  | VInt z => str_int z
  | VStr s => s
  | VFloat _ | VList _ | VDict _ => repr rt v
  end.

(** [int(v)] *)
Definition py_int (v : value) : result Z :=
  match v with
  | VInt z => Ok z
  | VBool b => Ok (if b then 1 else 0)
  | VFloat (S754_zero _) => Ok 0
  | VFloat (S754_finite s m e) => Ok (trunc_float s m e)
  | VFloat (S754_infinity _) =>
      Raise (mk_exn OverflowError "cannot convert float infinity to integer")
  | VFloat S754_nan =>
      Raise (mk_exn ValueError "cannot convert float NaN to integer")
  | VStr s =>
      match int_of_str rt s with
      | Some z => Ok z
      | None =>
          Raise (mk_exn ValueError
                   ("invalid literal for int() with base 10: "
                      +:+ repr rt (VStr s)))
      end
  | VNone | VList _ | VDict _ =>
      Raise (mk_exn TypeError
               ("int() argument must be a string, a bytes-like object or "
                  +:+ "a real number, not '" +:+ type_name v +:+ "'"))
  end.

(** [float(v)] *)
Definition py_float (v : value) : result spec_float :=
  match v with
  | VFloat f => Ok f
  | VInt z =>
      match float_of_int rt z with
      | Some f => Ok f
      | None => Raise (mk_exn OverflowError "int too large to convert to float")
      end
  | VBool b => Ok (if b then S754_finite false 1 0 else S754_zero false)
  | VStr s =>
      match float_of_str rt s with
      | Some f => Ok f
      | None =>
          Raise (mk_exn ValueError
                   ("could not convert string to float: " +:+ repr rt (VStr s)))
      end
  | VNone | VList _ | VDict _ =>
      Raise (mk_exn TypeError
               ("float() argument must be a string or a real number, not '"
                  +:+ type_name v +:+ "'"))
  end.

(** ** [decode_weather_code] *)

Definition mapping : gmap Z string :=
  list_to_map
    [ (0, "Clear sky");
      (1, "Mainly clear");
      (2, "Partly cloudy");
      (3, "Overcast");
      (45, "Fog");
      (48, "Depositing rime fog");
      (51, "Light drizzle");
      (53, "Moderate drizzle");
      (55, "Dense drizzle");
      (61, "Slight rain");
      (63, "Moderate rain");
      (65, "Heavy rain");
      (71, "Slight snow");
      (73, "Moderate snow");
      (75, "Heavy snow");
      (80, "Rain showers (slight)");
      (81, "Rain showers (moderate)");
      (82, "Rain showers (violent)");
      (95, "Thunderstorm");
      (96, "Thunderstorm with slight hail");
      (99, "Thunderstorm with heavy hail") ].

(** [mapping.get(int(code), f"Unknown ({code})")]: the key is converted
    first, the default is built next, whether or not it is used. *)
Definition decode_weather_code (code : value) : result string :=
  try! key <- py_int code;
  let dflt := "Unknown (" +:+ py_str code +:+ ")" in
  Ok (default dflt (mapping !! key)).

(** The same line on an [int], with the limit on digits taken into account:
    [int(code)] is [code] itself, and the default text is built, by [str],
    before the table is looked at. *)
Definition decode_weather_code_int (max_str_digits : N) (code : Z)
    : result string :=
  let key := code in
  try! shown <- str_int_limited max_str_digits code;
  let dflt := "Unknown (" +:+ shown +:+ ")" in
  Ok (default dflt (mapping !! key)).

End Builtins.

(** ** The outside world *)

(** What [requests.get] hands back: the outcome of [resp.raise_for_status()]
    and of [resp.json()]. *)
Record response : Type := {
  raise_for_status : result unit;
  json : result value;
}.

(** Everything a run reads from outside the program. *)
Record env : Type := {
  argv : list string;                 (* sys.argv *)
  stdin_line : result string;         (* what input() returns, or raises *)
  requests_get : string → list (string * value) → result response;
  now_local : string;                 (* dt.datetime.now().strftime("%Y-%m-%d %H:%M:%S") *)
  resolve : string → string;          (* Path.resolve() *)
  open_append : string → result unit; (* whether path.open("a") succeeds *)
}.

Inductive event : Type :=
| Print (line : string)
| Input (prompt : string)
| Get (url : string) (params : list (string * value))
| Write (path : string) (data : string).

(** The files on disk (path to content) and what the run has done so far. *)
Record state : Type := mk_state {
  files : gmap string string;
  trace : list event;
}.

(** ** The monad of the script: state, and exceptions that keep the state *)

Definition M (A : Type) : Type := state → result A * state.

Definition ret {A} (a : A) : M A := fun st => (Ok a, st).

Definition raise {A} (e : exn) : M A := fun st => (Raise e, st).

Definition bind {A B} (m : M A) (k : A → M B) : M B :=
  fun st =>
    match m st with
    | (Ok a, st') => k a st'
    | (Raise e, st') => (Raise e, st')
    end.

Definition lift {A} (r : result A) : M A := fun st => (r, st).

Notation "'do' x <- m ; k" := (bind m (fun x => k))
  (at level 10, x name, m at level 100, k at level 200, only parsing).
Notation "'do' ' p <- m ; k" := (bind m (fun x => match x with p => k end))
  (at level 10, p pattern, m at level 100, k at level 200, only parsing).
Notation "m ;; k" := (bind m (fun _ => k))
  (at level 100, k at level 200, right associativity, only parsing).

Definition emit (ev : event) : M unit :=
  fun st => (Ok tt, mk_state (files st) (trace st ++ [ev])).

(** [try: body except c1 as e: h1 except c2 as e: h2 ...]: the first clause
    whose class the exception is an instance of handles it. *)
Definition try_except {A} (body : M A)
    (handlers : list (exn_class * (exn → M A))) : M A :=
  fun st =>
    match body st with
    | (Ok a, st') => (Ok a, st')
    | (Raise e, st') =>
        match List.find (fun h => isinstance e h.1) handlers with
        | Some h => h.2 e st'
        | None => (Raise e, st')
        end
    end.

(** ** Operations on dicts, lists and files *)

(** [v.get(key, dflt)]: only a dict has the method. *)
Definition get (v : value) (key : string) (dflt : value) : result value :=
  match v with
  | VDict d => Ok (default dflt (d !! key))
  | _ => Raise (mk_exn AttributeError
                  ("'" +:+ type_name v +:+ "' object has no attribute 'get'"))
  end.

(** [v[key]] for a string key. *)
Definition getitem (v : value) (key : string) : result value :=
  match v with
  | VDict d =>
      match d !! key with
      | Some x => Ok x
      | None => Raise (mk_exn KeyError ("'" +:+ key +:+ "'"))
      end
  | VStr _ => Raise (mk_exn TypeError "string indices must be integers")
  | VList _ => Raise (mk_exn TypeError "list indices must be integers or slices, not str")
  | _ => Raise (mk_exn TypeError
                  ("'" +:+ type_name v +:+ "' object is not subscriptable"))
  end.

(** [v[0]] for a value already known to be truthy. *)
Definition first (v : value) : result value :=
  match v with
  | VList (x :: _) => Ok x
  | VList [] => Raise (mk_exn IndexError "list index out of range")
  | VStr (String c _) => Ok (VStr (char c))
  | VStr EmptyString => Raise (mk_exn IndexError "string index out of range")
  | VDict _ => Raise (mk_exn KeyError "0")
  | _ => Raise (mk_exn TypeError
                  ("'" +:+ type_name v +:+ "' object is not subscriptable"))
  end.

(** [print(line)]; the console is taken to accept what is written to it. *)
Definition print (line : string) : M unit := emit (Print line).

(** [path.exists()] *)
Definition exists_ (path : string) : M bool :=
  fun st => (Ok (bool_decide (is_Some (files st !! path))), st).

(** [f.write(data)] on a file opened for appending; once the file is open
    the write is taken to succeed. *)
Definition write (path data : string) : M unit :=
  fun st =>
    (Ok tt,
     mk_state (<[path := default EmptyString (files st !! path) +:+ data]> (files st))
              (trace st ++ [Write path data])).

(** ** The [csv] writer (dialect [excel], [QUOTE_MINIMAL]) *)

Definition CRLF : string := String CR (char LF).

Definition special (c : ascii) : bool :=
  Ascii.eqb c COMMA || Ascii.eqb c DQUOTE || Ascii.eqb c CR || Ascii.eqb c LF.

(** Every quote character of the field is written twice. *)
Fixpoint double_quotes (s : string) : string :=
  match s with
  | EmptyString => EmptyString
  | String c s' =>
      if Ascii.eqb c DQUOTE then String DQUOTE (String DQUOTE (double_quotes s'))
      else String c (double_quotes s')
  end.

(** A field is quoted when it holds the delimiter, a quote or a line break. *)
Definition quote_field (s : string) : string :=
  if all_chars (fun c => negb (special c)) s then s
  else char DQUOTE +:+ double_quotes s +:+ char DQUOTE.

(** [writer.writerow(fields)] as the text of one record; a row made of a
    single empty field is written as a pair of quotes. *)
Definition record_line (fields : list string) : string :=
  match fields with
  | [EmptyString] => char DQUOTE +:+ char DQUOTE +:+ CRLF
  | _ => join (char COMMA) (quote_field <$> fields) +:+ CRLF
  end.

Definition fieldnames : list string :=
  [ "timestamp_local"; "city"; "lat"; "lon";
    "temperature_c"; "humidity_pct"; "wind_kmh"; "condition" ].

Definition CSV_PATH : string := "weather_log.csv".
Definition GEO_URL : string := "https://geocoding-api.open-meteo.com/v1/search".
Definition WEATHER_URL : string := "https://api.open-meteo.com/v1/forecast".

Section Program.
Context (rt : runtime) (w : env).

(** [requests.get(url, params=params, timeout=20)]: the world answers with a
    response or with the exception raised (a [Timeout] after the 20 seconds). *)
Definition http_get (url : string) (params : list (string * value)) : M response :=
  emit (Get url params) ;; lift (requests_get w url params).

(** [path.open("a", newline="", encoding="utf-8")]: creates the file when
    it is missing. *)
Definition open_a (path : string) : M unit :=
  lift (open_append w path) ;;
  fun st =>
    (Ok tt,
     mk_state (<[path := default EmptyString (files st !! path)]> (files st))
              (trace st)).

(** *** [csv.DictWriter] *)

(** How the writer turns a cell into text: [None] is the empty string, a
    string is itself, anything else goes through [str]. *)
Definition cell (v : value) : string :=
  match v with
  | VNone => EmptyString
  | VStr s => s
  | _ => py_str rt v
  end.

(** [DictWriter._dict_to_list]: keys outside [fieldnames] are refused
    (extrasaction is "raise"), missing ones are the empty string. *)
Definition dict_to_list (rowdict : gmap string value) : result (list value) :=
  if bool_decide (dom rowdict ⊆ list_to_set (C := gset string) fieldnames)
  then Ok ((fun key => default (VStr EmptyString) (rowdict !! key)) <$> fieldnames)
  else Raise (mk_exn ValueError "dict contains fields not in fieldnames").

Definition writerow (path : string) (rowdict : gmap string value) : M unit :=
  do fields <- lift (dict_to_list rowdict);
  write path (record_line (cell <$> fields)).

(** [writeheader] writes the row that maps every field name to itself. *)
Definition writeheader (path : string) : M unit :=
  writerow path (list_to_map (zip fieldnames (VStr <$> fieldnames))).

(** *** [geocode_city] *)

Definition geo_params (city : string) : list (string * value) :=
  [("name", VStr city); ("count", VInt 1); ("language", VStr "en")].

(** Lines 30 to 37: what [geocode_city] makes of the response. *)
Definition geocode_result (resp : response)
    : result (option (spec_float * spec_float * string)) :=
  try! _ <- raise_for_status resp;
  try! data <- json resp;
  try! found <- get data "results" VNone;
  let results := if truthy found then found else VList [] in
  if negb (truthy results) then Ok None
  else
    try! r <- first results;
    try! name <- get r "name" (VStr "?");
    try! country <- get r "country" (VStr "?");
    let resolved := py_str rt name +:+ ", " +:+ py_str rt country in
    try! lat_v <- getitem r "latitude";
    try! lat <- py_float rt lat_v;
    try! lon_v <- getitem r "longitude";
    try! lon <- py_float rt lon_v;
    Ok (Some (lat, lon, resolved)).

Definition geocode_city (city : string)
    : M (option (spec_float * spec_float * string)) :=
  do resp <- http_get GEO_URL (geo_params city);
  lift (geocode_result resp).

(** *** [fetch_weather] *)

Definition weather_params (lat lon : spec_float) : list (string * value) :=
  [ ("latitude", VFloat lat);
    ("longitude", VFloat lon);
    ("current", VList [VStr "temperature_2m"; VStr "relative_humidity_2m";
                       VStr "wind_speed_10m"; VStr "weather_code"]);
    ("timezone", VStr "auto") ].

Definition weather_result (resp : response) : result value :=
  try! _ <- raise_for_status resp;
  json resp.

Definition fetch_weather (lat lon : spec_float) : M value :=
  do resp <- http_get WEATHER_URL (weather_params lat lon);
  lift (weather_result resp).

(** *** [save_to_csv] *)

Definition save_to_csv (row : gmap string value) (path : string) : M unit :=
  do present <- exists_ path;
  let new_file := negb present in
  open_a path ;;
  (if new_file then writeheader path else ret tt) ;;
  writerow path row.

(** *** [main] *)

Definition NL : string := char LF.
Definition DEGREE : string := char "176"%char.

(** The row [main] hands to [save_to_csv]. *)
Definition log_row (now resolved_name : string) (lat lon : spec_float)
    (temp hum wind : value) (condition : string) : gmap string value :=
  list_to_map
    [ ("timestamp_local", VStr now);
      ("city", VStr resolved_name);
      ("lat", VStr (format_4f lat));
      ("lon", VStr (format_4f lon));
      ("temperature_c", temp);
      ("humidity_pct", hum);
      ("wind_kmh", wind);
      ("condition", VStr condition) ].

(** Lines 129 to 134: the readings taken from the weather payload and the
    condition phrase; the decoder runs only when a code is there. *)
Definition current_conditions (wx : value)
    : result (value * value * value * string) :=
  try! cur <- get wx "current" (VDict ∅);
  try! temp <- get cur "temperature_2m" VNone;
  try! hum <- get cur "relative_humidity_2m" VNone;
  try! wind <- get cur "wind_speed_10m" VNone;
  try! code <- get cur "weather_code" VNone;
  try! condition <-
    match code with
    | VNone => Ok "Unknown"
    | _ => decode_weather_code rt code
    end;
  Ok (temp, hum, wind, condition).

(** The body of the [try] statement. *)
Definition main_try (city : string) : M Z :=
  do g <- geocode_city city;
  match g with
  | None =>
      print ("Could not find location for '" +:+ city
               +:+ "'. Try a more specific name.") ;;
      ret 2
  | Some (lat, lon, resolved_name) =>
      do wx <- fetch_weather lat lon;
      do '(temp, hum, wind, condition) <- lift (current_conditions wx);
      print (NL +:+ "Weather in " +:+ resolved_name +:+ ":") ;;
      print ("  Temperature: " +:+ py_str rt temp +:+ " " +:+ DEGREE +:+ "C") ;;
      print ("  Humidity:    " +:+ py_str rt hum +:+ " %") ;;
      print ("  Wind:        " +:+ py_str rt wind +:+ " km/h") ;;
      print ("  Condition:   " +:+ condition) ;;
      save_to_csv
        (log_row (now_local w) resolved_name lat lon temp hum wind condition)
        CSV_PATH ;;
      print (NL +:+ "Saved to " +:+ resolve w CSV_PATH) ;;
      ret 0
  end.

(** The [except] clauses of [main], in the order they are written. *)
Definition main_except : list (exn_class * (exn → M Z)) :=
  [ (HTTPError, fun e =>
       print ("HTTP error: " +:+ exn_msg e
                +:+ " (check your internet or try again later)") ;;
       ret 3);
    (RequestException, fun e =>
       print ("Network error: " +:+ exn_msg e) ;; ret 4);
    (Exception, fun e =>
       print ("Unexpected error: " +:+ exn_msg e) ;; ret 5) ].

Definition BANNER : string := "=== Weather Fetcher & Saver ===".
Definition PROMPT : string := "Enter a city (e.g., 'Mumbai', 'London, UK'): ".

Definition main : M Z :=
  print BANNER ;;
  do city <-
    (if (1 <? length (argv w))%nat then ret (join " " (drop 1 (argv w)))
     else
       emit (Input PROMPT) ;;
       do typed <- lift (stdin_line w);
       ret (strip typed));
  if String.eqb city EmptyString then
    print "No city provided. Exiting." ;;
    ret 1
  else
    try_except (main_try city) main_except.

End Program.

(** * Vocabulary of the properties *)

(** ** Reading a CSV text back *)

(** The reader of the [csv] module for the same dialect, as a machine that
    consumes one character at a time. *)
Inductive rmode : Set :=
| StartRecord | StartField | InField | InQuoted | QuoteInQuoted | AfterCR.

Record rstate : Type := mk_rstate {
  records : list (list string);   (* the records read so far *)
  row : list string;              (* the fields of the record being read *)
  fld : string;                   (* the field being read *)
  mode : rmode;
}.

Definition add_char (st : rstate) (c : ascii) (m : rmode) : rstate :=
  mk_rstate (records st) (row st) (fld st +:+ char c) m.

Definition end_field (st : rstate) : rstate :=
  mk_rstate (records st) (row st ++ [fld st]) EmptyString StartField.

Definition end_record (st : rstate) (m : rmode) : rstate :=
  mk_rstate (records st ++ [(row st ++ [fld st])%list]) [] EmptyString m.

Definition blank_record (st : rstate) (m : rmode) : rstate :=
  mk_rstate (records st ++ [[]]) [] EmptyString m.

(** A character met outside quotes, at the start of a record or of a field
    ([fresh]) or inside an unquoted field. *)
Definition step_plain (st : rstate) (c : ascii) (fresh at_record_start : bool) : rstate :=
  if Ascii.eqb c CR then
    if at_record_start then blank_record st AfterCR else end_record st AfterCR
  else if Ascii.eqb c LF then
    if at_record_start then blank_record st StartRecord else end_record st StartRecord
  else if Ascii.eqb c COMMA then end_field st
  else if Ascii.eqb c DQUOTE && fresh then
    mk_rstate (records st) (row st) (fld st) InQuoted
  else add_char st c InField.

Definition step (st : rstate) (c : ascii) : rstate :=
  match mode st with
  | StartRecord => step_plain st c true true
  | StartField => step_plain st c true false
  | InField => step_plain st c false false
  | InQuoted =>
      if Ascii.eqb c DQUOTE then mk_rstate (records st) (row st) (fld st) QuoteInQuoted
      else add_char st c InQuoted
  | QuoteInQuoted =>
      if Ascii.eqb c DQUOTE then add_char st c InQuoted
      else step_plain st c false false
  | AfterCR =>
      if Ascii.eqb c LF then mk_rstate (records st) (row st) (fld st) StartRecord
      else step_plain st c true true
  end.

Fixpoint run (st : rstate) (s : string) : rstate :=
  match s with
  | EmptyString => st
  | String c s' => run (step st c) s'
  end.

Definition start : rstate := mk_rstate [] [] EmptyString StartRecord.

(** The records of a CSV text; text that stops in the middle of a record
    still yields that record. *)
Definition csv_reader (s : string) : list (list string) :=
  let st := run start s in
  match mode st with
  | StartRecord | AfterCR => records st
  | _ => (records st ++ [(row st ++ [fld st])%list])%list
  end.

(** ** Numbers with four decimals *)

Definition is_digit (c : ascii) : bool :=
  let n := nat_of_ascii c in ((48 <=? n) && (n <=? 57))%nat.

(** Splits at the first full stop. *)
Fixpoint split_dot (s : string) : option (string * string) :=
  match s with
  | EmptyString => None
  | String c s' =>
      if Ascii.eqb c "."%char then Some (EmptyString, s')
      else
        match split_dot s' with
        | Some (a, b) => Some (String c a, b)
        | None => None
        end
  end.

Definition unsigned_four_decimals (s : string) : bool :=
  match split_dot s with
  | Some (a, b) =>
      negb (String.eqb a EmptyString) && all_chars is_digit a
      && all_chars is_digit b && (String.length b =? 4)%nat
  | None => false
  end.

(** The text is an optional minus sign, one digit or more, a full stop and
    exactly four digits. *)
Definition four_decimals (s : string) : bool :=
  match s with
  | String "-"%char s' => unsigned_four_decimals s'
  | _ => unsigned_four_decimals s
  end.

(** ** Runs of the program *)

(** The exception [input()] raises, when the program prompts and it does. *)
Definition prompt_failure (w : env) : option exn :=
  if (1 <? length (argv w))%nat then None
  else
    match stdin_line w with
    | Ok _ => None
    | Raise e => Some e
    end.

(** The city text [main] works with (empty when [input()] raised: [main]
    then raises too and does not use it), and the events up to its
    validation. *)
Definition city_of (w : env) : string :=
  if (1 <? length (argv w))%nat then join " " (drop 1 (argv w))
  else
    match stdin_line w with
    | Ok typed => strip typed
    | Raise _ => EmptyString
    end.

Definition prelude (w : env) : list event :=
  Print BANNER :: (if (1 <? length (argv w))%nat then [] else [Input PROMPT]).

Definition add_events (st : state) (evs : list event) : state :=
  mk_state (files st) (trace st ++ evs).

Definition after_prelude (w : env) (st : state) : state :=
  add_events st (prelude w).

Definition is_get (ev : event) : bool :=
  match ev with
  | Get _ _ => true
  | _ => false
  end.

(** One successful run's worth of data, as [main] logs it. *)
Record reading : Type := {
  r_now : string;
  r_city : string;
  r_lat : spec_float;
  r_lon : spec_float;
  r_temp : value;
  r_hum : value;
  r_wind : value;
  r_condition : string;
}.

Definition row_of (rd : reading) : gmap string value :=
  log_row (r_now rd) (r_city rd) (r_lat rd) (r_lon rd)
          (r_temp rd) (r_hum rd) (r_wind rd) (r_condition rd).

(** The eight fields of the row, in column order. *)
Definition fields_of (rt : runtime) (rd : reading) : list string :=
  [ r_now rd; r_city rd; format_4f (r_lat rd); format_4f (r_lon rd);
    cell rt (r_temp rd); cell rt (r_hum rd); cell rt (r_wind rd);
    r_condition rd ].

(** Appending the rows one call after the other. *)
Fixpoint append_all (rt : runtime) (w : env) (rows : list (gmap string value))
    (path : string) : M unit :=
  match rows with
  | [] => ret tt
  | r :: rows' => save_to_csv rt w r path ;; append_all rt w rows' path
  end.

Definition header_line : string := record_line fieldnames.

(** A runtime and a few payloads to run the model on. *)
Definition sample_runtime : runtime :=
  {| repr := fun _ => "<repr>";
     int_of_str := fun _ => None;
     float_of_str := fun _ => None;
     float_of_int := fun _ => None |}.

(** The codes of the condition table. *)
Definition table_codes : list Z :=
  [0; 1; 2; 3; 45; 48; 51; 53; 55; 61; 63; 65; 71; 73; 75; 80; 81; 82; 95; 96; 99].

(** ** Modes of the reader *)

(** The modes outside quotes. *)
Definition plain (m : rmode) : bool :=
  match m with
  | StartRecord | StartField | InField => true
  | _ => false
  end.

(** The mode the reader is in once it has read a field written by the
    writer, having started the field in mode [m]. *)
Definition mode_after (m : rmode) (f : string) : rmode :=
  if all_chars (fun c => negb (special c)) f then
    match f with EmptyString => m | _ => InField end
  else QuoteInQuoted.

(** The modes in which a field can end. *)
Definition closing (m : rmode) : bool :=
  match m with
  | StartField | InField | QuoteInQuoted => true
  | _ => false
  end.

(** ** The text of the log *)

Fixpoint concat_lines (l : list string) : string :=
  match l with
  | [] => EmptyString
  | s :: l' => s +:+ concat_lines l'
  end.

(** The content of the log after a line is appended, and the writes made,
    given what the file held before ([None]: there was no file). *)
Definition log_text (previous : option string) (line : string) : string :=
  match previous with
  | None => header_line +:+ line
  | Some old => old +:+ line
  end.

Definition log_writes (path : string) (previous : option string) (line : string)
    : list event :=
  match previous with
  | None => [Write path header_line; Write path line]
  | Some _ => [Write path line]
  end.

(** ** Outcomes and messages *)

(** What the two network steps answer in a given world. *)
Definition geocode_outcome (rt : runtime) (w : env) (city : string)
    : result (option (spec_float * spec_float * string)) :=
  try! resp <- requests_get w GEO_URL (geo_params city);
  geocode_result rt resp.

Definition weather_outcome (w : env) (lat lon : spec_float) : result value :=
  try! resp <- requests_get w WEATHER_URL (weather_params lat lon);
  weather_result resp.

(** The exit code of the [except] clause that handles [e], by the class of
    [e]: 3 for an [HTTPError], 4 for every other class that derives from
    [RequestException], 5 for the rest. *)
Definition except_exit_code (e : exn) : Z :=
  match exn_cls e with
  | HTTPError => 3
  | RequestException | ConnectionError | Timeout | JSONDecodeError => 4
  | _ => 5
  end.

Definition diagnostic (e : exn) : string :=
  match except_exit_code e with
  | 3 => "HTTP error: " +:+ exn_msg e +:+ " (check your internet or try again later)"
  | 4 => "Network error: " +:+ exn_msg e
  | _ => "Unexpected error: " +:+ exn_msg e
  end.

(** The lines [main] prints once the weather is known. *)
Definition summary (rt : runtime) (name : string) (temp hum wind : value)
    (condition : string) : list event :=
  [ Print (NL +:+ "Weather in " +:+ name +:+ ":");
    Print ("  Temperature: " +:+ py_str rt temp +:+ " " +:+ DEGREE +:+ "C");
    Print ("  Humidity:    " +:+ py_str rt hum +:+ " %");
    Print ("  Wind:        " +:+ py_str rt wind +:+ " km/h");
    Print ("  Condition:   " +:+ condition) ].

Definition not_found_message (city : string) : string :=
  "Could not find location for '" +:+ city +:+ "'. Try a more specific name.".

(** ** Worlds to run the program in *)

(** A response with a success status and [data] as its JSON body. *)
Definition answer (data : value) : result response :=
  Ok {| raise_for_status := Ok tt; json := Ok data |}.

Definition world (args : list string) (typed : string)
    (net : string → list (string * value) → result response) : env :=
  {| argv := args;
     stdin_line := Ok typed;
     requests_get := net;
     now_local := "2024-01-02 03:04:05";
     resolve := fun path => "/home/user/" +:+ path;
     open_append := fun _ => Ok tt |}.

Definition no_results : value := VDict {[ "results" := VList [] ]}.

(** The program is started with one argument, a single space. *)
Definition blank_argument_world : env :=
  world ["weather_fetcher.py"; " "] EmptyString (fun _ _ => answer no_results).

(** A place the geocoder does not know. *)
Definition nowhere_world : env :=
  world ["weather_fetcher.py"; "Atlantis"] EmptyString (fun _ _ => answer no_results).

Definition empty_disk : state := mk_state ∅ [].

(** The geocoding service answers 404. *)
Definition http_error_world : env :=
  world ["weather_fetcher.py"; "Mumbai"] EmptyString
    (fun _ _ => Ok {| raise_for_status := Raise (mk_exn HTTPError "404 Client Error");
                      json := Ok VNone |}).

(** The network is down. *)
Definition offline_world : env :=
  world ["weather_fetcher.py"; "Mumbai"] EmptyString
    (fun _ _ => Raise (mk_exn ConnectionError "Max retries exceeded")).

(** The user interrupts the program while it waits for the geocoder. *)
Definition interrupted_world : env :=
  world ["weather_fetcher.py"; "Mumbai"] EmptyString
    (fun _ _ => Raise (mk_exn KeyboardInterrupt EmptyString)).

(** The program prompts for a city and the input is at its end. *)
Definition end_of_input_world : env :=
  {| argv := ["weather_fetcher.py"];
     stdin_line := Raise (mk_exn EOFError "EOF when reading a line");
     requests_get := fun _ _ => answer no_results;
     now_local := "2024-01-02 03:04:05";
     resolve := fun path => "/home/user/" +:+ path;
     open_append := fun _ => Ok tt |}.

(** Mumbai, at 19.076 N 72.8777 E, as the geocoding service answers. *)
Definition mumbai_lat : spec_float := S754_finite false 2684708327866237 (-47).
Definition mumbai_lon : spec_float := S754_finite false 80129878555571 (-40).

Definition mumbai_place : gmap string value :=
  list_to_map [ ("name", VStr "Mumbai"); ("country", VStr "India");
                ("latitude", VFloat mumbai_lat); ("longitude", VFloat mumbai_lon) ].

Definition mumbai : value := VDict {[ "results" := VList [VDict mumbai_place] ]}.

(** A weather payload whose [current] object is [cur]. *)
Definition weather (cur : gmap string value) : value :=
  VDict {[ "current" := VDict cur ]}.

Definition mumbai_world (cur : gmap string value) : env :=
  world ["weather_fetcher.py"; "Mumbai"] EmptyString
    (fun url _ => answer (if String.eqb url GEO_URL then mumbai else weather cur)).

(** Readings without a condition code. *)
Definition no_code : gmap string value :=
  list_to_map [ ("temperature_2m", VInt 30); ("relative_humidity_2m", VInt 70);
                ("wind_speed_10m", VInt 12) ].

(** The geocoding service answers with [null] for the results. *)
Definition null_results_world : env :=
  world ["weather_fetcher.py"; "Atlantis"] EmptyString
    (fun _ _ => answer (VDict {[ "results" := VNone ]})).

(** The geocoding service knows the place but sends no coordinates. *)
Definition no_coordinates_world : env :=
  world ["weather_fetcher.py"; "Mumbai"] EmptyString
    (fun _ _ => answer (VDict {[ "results" :=
                  VList [VDict {[ "name" := VStr "Mumbai" ]}] ]})).

(** The geocoding service sends a latitude too large for a double, which the
    JSON decoder reads as infinity. *)
Definition infinite_latitude_world : env :=
  world ["weather_fetcher.py"; "Mumbai"] EmptyString
    (fun url _ =>
       answer (if String.eqb url GEO_URL
               then VDict {[ "results" := VList [VDict
                      (<["latitude" := VFloat (S754_infinity false)]> mumbai_place)] ]}
               else weather no_code)).

(** The reading of a run for Mumbai. *)
Definition mumbai_reading : reading :=
  {| r_now := "2024-01-02 03:04:05"; r_city := "Mumbai, India";
     r_lat := mumbai_lat; r_lon := mumbai_lon;
     r_temp := VInt 30; r_hum := VInt 70; r_wind := VNone;
     r_condition := "Partly cloudy" |}.

Definition mumbai_line : string :=
  "2024-01-02 03:04:05," +:+ char DQUOTE +:+ "Mumbai, India" +:+ char DQUOTE
    +:+ ",19.0760,72.8777,30,70,,Partly cloudy" +:+ CRLF.

(** A disk on which the log already holds the header. *)
Definition disk_with_log : state := mk_state {[ CSV_PATH := header_line ]} [].

(** The geocoding service answers with a page that is not JSON. *)
Definition undecodable_body_world : env :=
  world ["weather_fetcher.py"; "Mumbai"] EmptyString
    (fun _ _ =>
       Ok {| raise_for_status := Ok tt;
             json := Raise (mk_exn JSONDecodeError
                              "Expecting value: line 1 column 1 (char 0)") |}).

(** An integer of 4301 digits. *)
Definition long_code : Z := 10 ^ 4300.

(** ** Vocabulary of the further properties *)

(** The events a run adds to the trace it started with. *)
Definition new_events (before after : state) : list event :=
  drop (length (trace before)) (trace after).

Definition is_input (ev : event) : bool :=
  match ev with
  | Input _ => true
  | _ => false
  end.

(** The same world with another answer at the prompt. *)
Definition with_stdin (w : env) (typed : result string) : env :=
  {| argv := argv w;
     stdin_line := typed;
     requests_get := requests_get w;
     now_local := now_local w;
     resolve := resolve w;
     open_append := open_append w |}.

(** The text of a log that holds the header and the given records. *)
Definition log_of (rows : list (list string)) : string :=
  concat_lines (record_line <$> (fieldnames :: rows)).

(** The cells [DictWriter] writes for a row dictionary, column by column. *)
Definition cells_of (rt : runtime) (rowdict : gmap string value) : list string :=
  (fun key => cell rt (default (VStr EmptyString) (rowdict !! key))) <$> fieldnames.

(** A weather payload that is an empty object. *)
Definition empty_payload_world : env :=
  world ["weather_fetcher.py"; "Mumbai"] EmptyString
    (fun url _ => answer (if String.eqb url GEO_URL then mumbai else VDict ∅)).

(** The disk is read-only. *)
Definition read_only_world : env :=
  {| argv := ["weather_fetcher.py"; "Mumbai"];
     stdin_line := Ok EmptyString;
     requests_get := fun url _ =>
       answer (if String.eqb url GEO_URL then mumbai else weather no_code);
     now_local := "2024-01-02 03:04:05";
     resolve := fun path => "/home/user/" +:+ path;
     open_append := fun _ => Raise (mk_exn OSError "[Errno 13] Permission denied") |}.

(** The geocoding service answers [false] for the results. *)
Definition false_results_world : env :=
  world ["weather_fetcher.py"; "Atlantis"] EmptyString
    (fun _ _ => answer (VDict {[ "results" := VBool false ]})).

(** The geocoding service answers a text for the results. *)
Definition text_results_world : env :=
  world ["weather_fetcher.py"; "Atlantis"] EmptyString
    (fun _ _ => answer (VDict {[ "results" := VStr "none" ]})).

(** * Properties *)

(** ** The condition decoder *)

Lemma mapping_keys : (mapping : gmap Z string) = list_to_map (zip table_codes
  [ "Clear sky"; "Mainly clear"; "Partly cloudy"; "Overcast"; "Fog";
    "Depositing rime fog"; "Light drizzle"; "Moderate drizzle"; "Dense drizzle";
    "Slight rain"; "Moderate rain"; "Heavy rain"; "Slight snow"; "Moderate snow";
    "Heavy snow"; "Rain showers (slight)"; "Rain showers (moderate)";
    "Rain showers (violent)"; "Thunderstorm"; "Thunderstorm with slight hail";
    "Thunderstorm with heavy hail" ]).
Proof. reflexivity. Qed.

Lemma mapping_lookup_None (z : Z) : z ∉ table_codes → mapping !! z = None.
Proof. intros H. by apply not_elem_of_list_to_map. Qed.

Lemma mapping_lookup_Some (z : Z) (phrase : string) :
  mapping !! z = Some phrase → z ∈ table_codes ∧ phrase ≠ "Unknown".
Proof.
  intros H. apply elem_of_list_to_map_2 in H.
  repeat (apply elem_of_cons in H as [H | H];
          [injection H as -> ->; split; [set_solver | discriminate] |]).
  by apply elem_of_nil in H.
Qed.

(** With the conversion to text allowed, an integer code outside the table
    is shown in the fallback text. *)
Lemma decode_weather_code_unknown (rt : runtime) (z : Z) :
  z ∉ table_codes →
  decode_weather_code rt (VInt z) = Ok ("Unknown (" +:+ str_int z +:+ ")").
Proof.
  intros H. unfold decode_weather_code, py_int, py_str, rbind.
  by rewrite (mapping_lookup_None z H).
Qed.

Lemma str_int_limited_within (max_str_digits : N) (z : Z) :
  (max_str_digits = 0 ∨ int_digits z ≤ max_str_digits)%N →
  str_int_limited max_str_digits z = Ok (str_int z).
Proof.
  intros H. unfold str_int_limited.
  destruct (0 <? max_str_digits)%N eqn:E0; [| done].
  destruct (max_str_digits <? int_digits z)%N eqn:E1; [| done].
  apply N.ltb_lt in E0, E1. lia.
Qed.

Lemma str_int_limited_beyond (max_str_digits : N) (z : Z) :
  (0 < max_str_digits < int_digits z)%N →
  str_int_limited max_str_digits z
  = Raise (mk_exn ValueError (max_str_digits_message max_str_digits)).
Proof.
  intros [H0 H1]. unfold str_int_limited.
  apply N.ltb_lt in H0, H1. by rewrite H0, H1.
Qed.

(** Within the limit the decoder is the one [main] is modelled with. *)
Lemma decode_weather_code_int_within (rt : runtime) (max_str_digits : N) (z : Z) :
  (max_str_digits = 0 ∨ int_digits z ≤ max_str_digits)%N →
  decode_weather_code_int max_str_digits z = decode_weather_code rt (VInt z).
Proof.
  intros H. unfold decode_weather_code_int, decode_weather_code.
  by rewrite (str_int_limited_within _ _ H).
Qed.

(** C1. For an integer code outside the condition table, negative or
    positive, [decode_weather_code] returns the text "Unknown (<code>)" with
    the decimal digits of the code in it and does not raise, as long as the
    code has no more digits than the interpreter converts to text (4300 by
    default; any number of them when the limit is off).  On a code with more
    digits it raises a [ValueError]: the fallback text is built by [str]. *)
Theorem decode_weather_code_int_unknown (rt : runtime) (max_str_digits : N)
    (z : Z) :
  z ∉ table_codes →
  ((max_str_digits = 0 ∨ int_digits z ≤ max_str_digits)%N →
     decode_weather_code_int max_str_digits z
     = Ok ("Unknown (" +:+ str_int z +:+ ")")
     ∧ decode_weather_code rt (VInt z)
       = decode_weather_code_int max_str_digits z)
  ∧ ((0 < max_str_digits < int_digits z)%N →
     decode_weather_code_int max_str_digits z
     = Raise (mk_exn ValueError (max_str_digits_message max_str_digits))).
Proof.
  intros Hz. split.
  - intros H. rewrite (decode_weather_code_int_within rt _ _ H).
    split; [by apply decode_weather_code_unknown | done].
  - intros H. unfold decode_weather_code_int.
    by rewrite (str_int_limited_beyond _ _ H).
Qed.

Lemma decode_weather_code_int_unknown_witness :
  ((-1) ∉ table_codes)
  ∧ decode_weather_code_int DEFAULT_MAX_STR_DIGITS (-1) = Ok "Unknown (-1)".
Proof.
  assert (H : (-1) ∉ table_codes) by (apply (bool_decide_unpack _); reflexivity).
  split; [exact H |].
  refine (proj1 (proj1 (decode_weather_code_int_unknown sample_runtime
                          DEFAULT_MAX_STR_DIGITS (-1) H) _)).
  right. vm_compute. discriminate.
Defined.

(** An integer of 4301 digits is outside the table, and under the default
    limit the decoder raises on it instead of returning the fallback text. *)
Lemma decode_weather_code_long_code_raises :
  (long_code ∉ table_codes)
  ∧ int_digits long_code = 4301%N
  ∧ decode_weather_code_int DEFAULT_MAX_STR_DIGITS long_code
    = Raise (mk_exn ValueError
               ("Exceeds the limit (4300 digits) for integer string conversion; "
                  +:+ "use sys.set_int_max_str_digits() to increase the limit")).
Proof.
  split; [apply (bool_decide_unpack _); vm_compute; exact I |].
  split; vm_compute; reflexivity.
Qed.

Example decode_100 : decode_weather_code sample_runtime (VInt 100) = Ok "Unknown (100)".
Proof. reflexivity. Qed.

Example decode_9999 : decode_weather_code sample_runtime (VInt 9999) = Ok "Unknown (9999)".
Proof. reflexivity. Qed.

(** C2. On each of the 21 codes of the table [decode_weather_code] returns
    the phrase the table gives for it, whatever the runtime; the table has
    no other entry.  The decoder is a function of its argument alone (its
    type has no state), so equal inputs give equal outputs. *)
Theorem decode_weather_code_table (rt : runtime) :
  Forall (fun '(code, phrase) => decode_weather_code rt (VInt code) = Ok phrase)
    [ (0, "Clear sky"); (1, "Mainly clear"); (2, "Partly cloudy");
      (3, "Overcast"); (45, "Fog"); (48, "Depositing rime fog");
      (51, "Light drizzle"); (53, "Moderate drizzle"); (55, "Dense drizzle");
      (61, "Slight rain"); (63, "Moderate rain"); (65, "Heavy rain");
      (71, "Slight snow"); (73, "Moderate snow"); (75, "Heavy snow");
      (80, "Rain showers (slight)"); (81, "Rain showers (moderate)");
      (82, "Rain showers (violent)"); (95, "Thunderstorm");
      (96, "Thunderstorm with slight hail");
      (99, "Thunderstorm with heavy hail") ]
  ∧ dom (mapping : gmap Z string) = list_to_set table_codes
  ∧ ∀ c1 c2 : value, c1 = c2 → decode_weather_code rt c1 = decode_weather_code rt c2.
Proof.
  split; [| split].
  - repeat (apply Forall_cons; split; [reflexivity |]). constructor.
  - rewrite mapping_keys, dom_list_to_map_L. by rewrite fst_zip.
  - by intros c1 c2 ->.
Qed.

(** The decoder never answers the bare word the caller uses for a missing code. *)
Lemma decode_weather_code_not_bare (rt : runtime) (z : Z) :
  decode_weather_code rt (VInt z) ≠ Ok "Unknown".
Proof.
  unfold decode_weather_code, py_int, py_str, rbind.
  destruct (mapping !! z) as [phrase |] eqn:E; unfold default.
  - apply mapping_lookup_Some in E as [_ E]. by intros [= ->].
  - discriminate.
Qed.

(** ** Strings *)

Lemma append_nil_r (s : string) : s +:+ EmptyString = s.
Proof. induction s as [| c s IH]; simpl; [done | by rewrite IH]. Qed.

Lemma append_assoc (a b c : string) : (a +:+ b) +:+ c = a +:+ (b +:+ c).
Proof. induction a as [| x a IH]; simpl; [done | by rewrite IH]. Qed.

Lemma all_chars_app (p : ascii → bool) (a b : string) :
  all_chars p (a +:+ b) = all_chars p a && all_chars p b.
Proof.
  induction a as [| x a IH]; simpl; [done |].
  by rewrite IH, andb_assoc.
Qed.

(** ** Reading back what the writer wrote *)

Lemma run_app (a b : string) (st : rstate) :
  run st (a +:+ b) = run (run st a) b.
Proof. revert st. induction a as [| c a IH]; intros st; simpl; [done | apply IH]. Qed.

Lemma step_ordinary (st : rstate) (c : ascii) :
  plain (mode st) = true → special c = false →
  step st c = add_char st c InField.
Proof.
  unfold special. intros Hm Hc.
  apply orb_false_elim in Hc as [Hc Hlf].
  apply orb_false_elim in Hc as [Hc Hcr].
  apply orb_false_elim in Hc as [Hcomma Hq].
  unfold step, step_plain.
  destruct (mode st); try discriminate; by rewrite Hcr, Hlf, Hcomma, Hq.
Qed.

Lemma run_ordinary (f : string) (st : rstate) :
  plain (mode st) = true →
  all_chars (fun c => negb (special c)) f = true →
  run st f =
    mk_rstate (records st) (row st) (fld st +:+ f)
      (match f with EmptyString => mode st | _ => InField end).
Proof.
  revert st. induction f as [| c f IH]; intros st Hm Hf.
  - rewrite append_nil_r. by destruct st.
  - simpl. simpl in Hf. apply andb_prop in Hf as [Hc Hf].
    apply negb_true_iff in Hc.
    rewrite (step_ordinary st c Hm Hc).
    rewrite IH by done. simpl.
    rewrite append_assoc. simpl.
    by destruct f.
Qed.

Lemma run_double_quotes (f : string) (st : rstate) :
  mode st = InQuoted →
  run st (double_quotes f) =
    mk_rstate (records st) (row st) (fld st +:+ f) InQuoted.
Proof.
  revert st. induction f as [| c f IH]; intros st Hm.
  - rewrite append_nil_r. destruct st; simpl in *; by subst.
  - simpl. destruct (Ascii.eqb c DQUOTE) eqn:E; simpl.
    + apply Ascii.eqb_eq in E as ->.
      unfold step at 2. rewrite Hm. simpl.
      unfold step at 1. simpl.
      rewrite IH by done. simpl. by rewrite append_assoc.
    + unfold step at 1. rewrite Hm, E.
      rewrite IH by done. simpl. by rewrite append_assoc.
Qed.

Lemma run_quote_field (f : string) (st : rstate) :
  mode st = StartRecord ∨ mode st = StartField →
  fld st = EmptyString →
  run st (quote_field f) =
    mk_rstate (records st) (row st) f (mode_after (mode st) f).
Proof.
  intros Hm Hf. unfold quote_field, mode_after.
  destruct (all_chars _ f) eqn:E.
  - rewrite run_ordinary; [| by destruct Hm as [-> | ->] | done].
    by rewrite Hf.
  - rewrite !run_app. simpl.
    assert (step st DQUOTE = mk_rstate (records st) (row st) (fld st) InQuoted) as ->.
    { unfold step. by destruct Hm as [-> | ->]. }
    rewrite run_double_quotes by done. simpl.
    unfold step. simpl. by rewrite Hf.
Qed.

Lemma step_comma (st : rstate) :
  plain (mode st) = true ∨ mode st = QuoteInQuoted →
  step st COMMA = end_field st.
Proof.
  intros [Hm | Hm]; unfold step.
  - by destruct (mode st).
  - by rewrite Hm.
Qed.

Lemma run_CRLF (st : rstate) :
  closing (mode st) = true →
  run st CRLF = end_record st StartRecord.
Proof. intros Hm. simpl. unfold step at 2. by destruct (mode st). Qed.

Lemma mode_after_closing (m : rmode) (f : string) :
  m = StartField ∨ (m = StartRecord ∧ quote_field f ≠ EmptyString) →
  closing (mode_after m f) = true.
Proof.
  unfold mode_after, quote_field.
  destruct (all_chars _ f); [| done].
  destruct f; [| done].
  intros [-> | [-> H]]; done.
Qed.

Lemma run_fields (fs : list string) (st : rstate) :
  fs ≠ [] →
  mode st = StartField ∨ (mode st = StartRecord ∧ fs ≠ [EmptyString]) →
  fld st = EmptyString →
  run st (join (char COMMA) (quote_field <$> fs) +:+ CRLF) =
    mk_rstate (records st ++ [(row st ++ fs)%list]) [] EmptyString StartRecord.
Proof.
  revert st. induction fs as [| f fs IH]; intros st Hne Hm Hf; [done |].
  assert (Hstart : mode st = StartRecord ∨ mode st = StartField)
    by (destruct Hm as [? | [? _]]; auto).
  destruct fs as [| f' fs].
  - simpl. rewrite run_app, run_quote_field by done.
    rewrite run_CRLF; [done |]. simpl.
    apply mode_after_closing.
    destruct Hm as [? | [? Hx]]; [by left | right; split; [done |]].
    intros Hq. apply Hx. f_equal.
    unfold quote_field in Hq. by destruct (all_chars _ f).
  - change (join (char COMMA) (quote_field <$> f :: f' :: fs))
      with (quote_field f +:+ char COMMA +:+ join (char COMMA) (quote_field <$> f' :: fs)).
    rewrite !append_assoc, run_app, run_quote_field by done.
    simpl (run _ (char COMMA +:+ _)).
    rewrite step_comma.
    + rewrite IH; [| done | by left | done].
      simpl. by rewrite <- app_assoc.
    + simpl. unfold mode_after.
      destruct (all_chars _ f); [| by right].
      left. destruct f; [| done]. by destruct Hstart as [-> | ->].
Qed.

Lemma run_record_line (fs : list string) (st : rstate) :
  mode st = StartRecord → row st = [] → fld st = EmptyString →
  run st (record_line fs) =
    mk_rstate (records st ++ [fs]) [] EmptyString StartRecord.
Proof.
  intros Hm Hr Hf. unfold record_line.
  destruct fs as [| f fs].
  - simpl. unfold step at 2. rewrite Hm. simpl. done.
  - destruct (decide (f :: fs = [EmptyString])) as [E | E].
    + injection E as -> ->. simpl.
      unfold step at 4. rewrite Hm. simpl.
      unfold step. simpl. by rewrite Hr, Hf.
    + assert (run st (join (char COMMA) (quote_field <$> f :: fs) +:+ CRLF) =
              mk_rstate (records st ++ [f :: fs]) [] EmptyString StartRecord) as R.
      { rewrite run_fields; [by rewrite Hr | done | by right | done]. }
      destruct f; [destruct fs; [done |] |]; exact R.
Qed.

Lemma run_records (rows : list (list string)) (st : rstate) :
  mode st = StartRecord → row st = [] → fld st = EmptyString →
  run st (concat_lines (record_line <$> rows)) =
    mk_rstate (records st ++ rows) [] EmptyString StartRecord.
Proof.
  revert st. induction rows as [| fs rows IH]; intros st Hm Hr Hf; simpl.
  - rewrite app_nil_r. destruct st; simpl in *; by subst.
  - rewrite run_app, run_record_line by done.
    rewrite IH by done. simpl. by rewrite <- app_assoc.
Qed.

(** Whatever the fields hold, the reader gets back the rows the writer wrote. *)
Lemma csv_reader_record_lines (rows : list (list string)) :
  csv_reader (concat_lines (record_line <$> rows)) = rows.
Proof. unfold csv_reader. by rewrite run_records. Qed.

(** ** Coordinates are written with four decimals *)

Lemma is_digit_digit (k : Z) : 0 ≤ k ≤ 9 → is_digit (digit k) = true.
Proof.
  intros H.
  assert (k = 0 ∨ k = 1 ∨ k = 2 ∨ k = 3 ∨ k = 4 ∨ k = 5 ∨ k = 6 ∨ k = 7
          ∨ k = 8 ∨ k = 9) as E by lia.
  repeat (destruct E as [-> | E]; [reflexivity |]).
  by subst.
Qed.

Lemma pad4_digits (n : Z) :
  0 ≤ n < 10000 →
  all_chars is_digit (pad4 n) = true ∧ String.length (pad4 n) = 4%nat.
Proof.
  intros H. unfold pad4. split; [| by cbn [String.length]].
  cbn [all_chars].
  rewrite !is_digit_digit; [done | | | |].
  - pose proof (Z.mod_pos_bound n 10). lia.
  - pose proof (Z.mod_pos_bound (n / 10) 10). lia.
  - pose proof (Z.mod_pos_bound (n / 100) 10). lia.
  - split; [apply Z.div_pos; lia |].
    apply Z.lt_succ_r. apply Z.div_lt_upper_bound; lia.
Qed.

Lemma string_of_uint_digits (u : Decimal.uint) :
  all_chars is_digit (NilEmpty.string_of_uint u) = true.
Proof. induction u; simpl; auto. Qed.

Lemma str_int_digits (z : Z) :
  0 ≤ z →
  all_chars is_digit (str_int z) = true ∧ str_int z ≠ EmptyString.
Proof.
  intros H. unfold str_int.
  destruct z as [| p | p]; [done | | lia].
  unfold Z.to_int, NilZero.string_of_int, NilZero.string_of_uint.
  pose proof (string_of_uint_digits (Pos.to_uint p)) as D.
  destruct (Pos.to_uint p); (split; [exact D || done | done]).
Qed.

Lemma split_dot_digits (a b : string) :
  all_chars is_digit a = true →
  split_dot (a +:+ "." +:+ b) = Some (a, b).
Proof.
  induction a as [| c a IH]; intros H; simpl in *; [done |].
  apply andb_prop in H as [Hc Ha].
  destruct (Ascii.eqb c ".") eqn:E.
  - apply Ascii.eqb_eq in E as ->. discriminate.
  - by rewrite IH.
Qed.

Lemma unsigned_four_decimals_intro (a b : string) :
  all_chars is_digit a = true → a ≠ EmptyString →
  all_chars is_digit b = true → String.length b = 4%nat →
  unsigned_four_decimals (a +:+ "." +:+ b) = true.
Proof.
  intros Ha Hne Hb Hl. unfold unsigned_four_decimals.
  rewrite split_dot_digits by done.
  rewrite Ha, Hb, Hl.
  apply String.eqb_neq in Hne. by rewrite Hne.
Qed.

Lemma four_decimals_fixed4 (neg : bool) (n : Z) :
  0 ≤ n → four_decimals (fixed4 neg n) = true.
Proof.
  intros H. unfold fixed4.
  destruct (str_int_digits (n / 10000)) as [Ha Hne]; [apply Z.div_pos; lia |].
  destruct (pad4_digits (n mod 10000)) as [Hb Hl];
    [apply Z.mod_pos_bound; lia |].
  pose proof (unsigned_four_decimals_intro _ _ Ha Hne Hb Hl) as U.
  revert Ha Hne U.
  generalize (str_int (n / 10000)) (pad4 (n mod 10000)). clear.
  intros a b Ha Hne U.
  destruct neg; simpl; [exact U |].
  destruct a as [| c a]; [done |].
  simpl in *. apply andb_prop in Ha as [Hc _].
  destruct (Ascii.eqb c "-") eqn:Ec.
  - apply Ascii.eqb_eq in Ec as ->. discriminate.
  - unfold four_decimals.
    destruct c as [[] [] [] [] [] [] [] []]; try exact U; discriminate.
Qed.

Lemma round_half_even_nonneg (n d : Z) :
  0 ≤ n → 0 < d → 0 ≤ round_half_even n d.
Proof.
  intros Hn Hd. unfold round_half_even.
  pose proof (Z.div_pos n d Hn Hd).
  destruct (2 * (n mod d) ?= d); [destruct (Z.even _) | |]; lia.
Qed.

Lemma scaled4_nonneg (m : positive) (e : Z) : 0 ≤ scaled4 m e.
Proof.
  unfold scaled4. destruct (0 <=? e) eqn:E.
  - apply Z.leb_le in E. pose proof (Z.pow_nonneg 2 e). nia.
  - apply Z.leb_gt in E. apply round_half_even_nonneg; [lia |].
    apply Z.pow_pos_nonneg; lia.
Qed.

Example format_4f_mumbai :
  format_4f mumbai_lat = "19.0760" ∧ format_4f mumbai_lon = "72.8777".
Proof. split; reflexivity. Qed.

(** 5/32 = 0.15625 is a tie, rounded to the even digit; a small negative
    number keeps its sign. *)
Example format_4f_rounding :
  format_4f (S754_finite false 5 (-5)) = "0.1562"
  ∧ format_4f (S754_finite false 3 (-14)) = "0.0002"
  ∧ format_4f (S754_finite true 1 (-20)) = "-0.0000"
  ∧ format_4f (S754_finite false 2384185791015625 22)
      = "10000000000000000000000.0000".
Proof. repeat split; vm_compute; reflexivity. Qed.

(** A finite coordinate is written as digits, a full stop and four digits. *)
Lemma four_decimals_format_4f (x : spec_float) :
  is_finite x = true → four_decimals (format_4f x) = true.
Proof.
  destruct x as [s | s | | s m e]; try discriminate; intros _; unfold format_4f.
  - by apply four_decimals_fixed4.
  - apply four_decimals_fixed4, scaled4_nonneg.
Qed.

(** ** Running the program *)

Lemma dict_to_list_row_of (rt : runtime) (rd : reading) :
  dict_to_list (row_of rd) =
    Ok [ VStr (r_now rd); VStr (r_city rd); VStr (format_4f (r_lat rd));
         VStr (format_4f (r_lon rd)); r_temp rd; r_hum rd; r_wind rd;
         VStr (r_condition rd) ].
Proof.
  destruct rd as [now city lat lon temp hum wind cond].
  unfold row_of, log_row, dict_to_list. cbn [r_now r_city r_lat r_lon r_temp r_hum r_wind r_condition].
  generalize (format_4f lat) (format_4f lon). intros la lo.
  rewrite bool_decide_true.
  - reflexivity.
  - rewrite dom_list_to_map_L. reflexivity.
Qed.

Lemma dict_to_list_header :
  dict_to_list (list_to_map (zip fieldnames (VStr <$> fieldnames))) =
    Ok (VStr <$> fieldnames).
Proof. reflexivity. Qed.

Lemma writerow_run (rt : runtime) (rowdict : gmap string value)
    (fields : list value) (path : string) (st : state) :
  dict_to_list rowdict = Ok fields →
  writerow rt path rowdict st =
    (Ok tt,
     mk_state
       (<[path := default EmptyString (files st !! path)
                    +:+ record_line (cell rt <$> fields)]> (files st))
       (trace st ++ [Write path (record_line (cell rt <$> fields))])).
Proof. intros H. unfold writerow, bind, lift, write. by rewrite H. Qed.

Lemma header_cells (rt : runtime) : cell rt <$> (VStr <$> fieldnames) = fieldnames.
Proof. reflexivity. Qed.

(** What one call of [save_to_csv] does, when the file can be opened and the
    row has no key outside the field names. *)
Lemma save_to_csv_run (rt : runtime) (w : env) (rowdict : gmap string value)
    (fields : list value) (path : string) (st : state) :
  open_append w path = Ok tt →
  dict_to_list rowdict = Ok fields →
  save_to_csv rt w rowdict path st =
    let line := record_line (cell rt <$> fields) in
    (Ok tt,
     mk_state (<[path := log_text (files st !! path) line]> (files st))
              (trace st ++ log_writes path (files st !! path) line)).
Proof.
  intros Hopen Hrow.
  unfold save_to_csv, bind, exists_, open_a, lift, writeheader, ret.
  rewrite Hopen.
  destruct (files st !! path) as [old |] eqn:E; simpl.
  - rewrite (writerow_run rt _ _ _ _ Hrow). simpl.
    by rewrite lookup_insert_eq, insert_insert_eq, E.
  - rewrite (writerow_run rt _ _ _ _ dict_to_list_header). simpl.
    rewrite (writerow_run rt _ _ _ _ Hrow). simpl.
    rewrite !lookup_insert_eq, !insert_insert_eq, E. simpl.
    rewrite <- app_assoc. reflexivity.
Qed.

Lemma save_to_csv_open_fails (rt : runtime) (w : env) (rowdict : gmap string value)
    (path : string) (st : state) (e : exn) :
  open_append w path = Raise e →
  save_to_csv rt w rowdict path st = (Raise e, st).
Proof.
  intros Hopen. unfold save_to_csv, bind, exists_, open_a, lift.
  by rewrite Hopen.
Qed.

Lemma add_events_add (st : state) (a b : list event) :
  add_events (add_events st a) b = add_events st (a ++ b).
Proof. unfold add_events. simpl. by rewrite <- app_assoc. Qed.

Lemma geocode_city_run (rt : runtime) (w : env) (city : string) (st : state) :
  geocode_city rt w city st =
    (geocode_outcome rt w city, add_events st [Get GEO_URL (geo_params city)]).
Proof.
  unfold geocode_city, geocode_outcome, http_get, bind, emit, lift. simpl.
  by destruct (requests_get w GEO_URL (geo_params city)).
Qed.

Lemma fetch_weather_run (w : env) (lat lon : spec_float) (st : state) :
  fetch_weather w lat lon st =
    (weather_outcome w lat lon,
     add_events st [Get WEATHER_URL (weather_params lat lon)]).
Proof.
  unfold fetch_weather, weather_outcome, http_get, bind, emit, lift. simpl.
  by destruct (requests_get w WEATHER_URL (weather_params lat lon)).
Qed.

(** Every modelled exception is caught by one of the three clauses, the first
    that matches: the one for [HTTPError] comes before the one for its base
    class. *)
Lemma try_except_main (body : M Z) (st : state) :
  try_except body main_except st =
    match body st with
    | (Ok c, st') => (Ok c, st')
    | (Raise e, st') =>
        if isinstance e Exception
        then (Ok (except_exit_code e), add_events st' [Print (diagnostic e)])
        else (Raise e, st')
    end.
Proof.
  unfold try_except. destruct (body st) as [[c | e] st']; [done |].
  destruct e as [cls msg]. by destruct cls.
Qed.

Lemma main_run (rt : runtime) (w : env) (st : state) :
  main rt w st =
    match prompt_failure w with
    | Some e => (Raise e, after_prelude w st)
    | None =>
        if String.eqb (city_of w) EmptyString
        then (Ok 1, add_events st (prelude w ++ [Print "No city provided. Exiting."]))
        else try_except (main_try rt w (city_of w)) main_except (after_prelude w st)
    end.
Proof.
  unfold main, prompt_failure, city_of, after_prelude, prelude, add_events,
    bind, print, emit, ret, lift.
  simpl.
  destruct (1 <? length (argv w))%nat; simpl.
  - destruct (String.eqb _ _); simpl; [| done]. by rewrite <- app_assoc.
  - destruct (stdin_line w) as [typed | e]; simpl; [| by rewrite <- ?app_assoc].
    destruct (String.eqb _ _); simpl; by rewrite <- ?app_assoc.
Qed.

Lemma prompt_failure_city (w : env) :
  city_of w ≠ EmptyString → prompt_failure w = None.
Proof.
  unfold city_of, prompt_failure.
  destruct (1 <? length (argv w))%nat; [done |].
  by destruct (stdin_line w).
Qed.

(** Past the validation, [main] is its [try] statement. *)
Lemma main_run_city (rt : runtime) (w : env) (st : state) :
  city_of w ≠ EmptyString →
  main rt w st =
    try_except (main_try rt w (city_of w)) main_except (after_prelude w st).
Proof.
  intros Hcity. rewrite main_run, (prompt_failure_city w Hcity).
  apply String.eqb_neq in Hcity. by rewrite Hcity.
Qed.

(** The body of the [try] statement, step by step. *)
Lemma main_try_run (rt : runtime) (w : env) (city : string) (st : state) :
  main_try rt w city st =
    let st1 := add_events st [Get GEO_URL (geo_params city)] in
    match geocode_outcome rt w city with
    | Raise e => (Raise e, st1)
    | Ok None => (Ok 2, add_events st1 [Print (not_found_message city)])
    | Ok (Some (lat, lon, name)) =>
        let st2 := add_events st1 [Get WEATHER_URL (weather_params lat lon)] in
        match weather_outcome w lat lon with
        | Raise e => (Raise e, st2)
        | Ok wx =>
            match current_conditions rt wx with
            | Raise e => (Raise e, st2)
            | Ok (temp, hum, wind, condition) =>
                let st3 := add_events st2 (summary rt name temp hum wind condition) in
                match open_append w CSV_PATH with
                | Raise e => (Raise e, st3)
                | Ok _ =>
                    let rd := {| r_now := now_local w; r_city := name;
                                 r_lat := lat; r_lon := lon;
                                 r_temp := temp; r_hum := hum; r_wind := wind;
                                 r_condition := condition |} in
                    let line := record_line (fields_of rt rd) in
                    let previous := files st !! CSV_PATH in
                    (Ok 0,
                     mk_state
                       (<[CSV_PATH := log_text previous line]> (files st))
                       (trace st3 ++ log_writes CSV_PATH previous line
                          ++ [Print (NL +:+ "Saved to " +:+ resolve w CSV_PATH)]))
                end
            end
        end
    end.
Proof.
  unfold main_try, bind. rewrite geocode_city_run.
  destruct (geocode_outcome rt w city) as [[[[lat lon] name] |] | e]; [| done | done].
  rewrite fetch_weather_run.
  destruct (weather_outcome w lat lon) as [wx | e]; [| done].
  unfold lift at 1.
  destruct (current_conditions rt wx) as [[[[temp hum] wind] condition] | e]; [| done].
  unfold print, emit, ret. cbn beta iota.
  destruct (open_append w CSV_PATH) as [[] | e] eqn:Hopen.
  - set (rd := {| r_now := now_local w; r_city := name; r_lat := lat;
                  r_lon := lon; r_temp := temp; r_hum := hum; r_wind := wind;
                  r_condition := condition |}).
    change (log_row (now_local w) name lat lon temp hum wind condition)
      with (row_of rd).
    rewrite (save_to_csv_run rt w _ _ _ _ Hopen (dict_to_list_row_of rt rd)).
    unfold summary, add_events. simpl. rewrite <- !app_assoc. reflexivity.
  - rewrite (save_to_csv_open_fails rt w _ _ _ _ Hopen).
    unfold summary, add_events. simpl. rewrite <- !app_assoc. reflexivity.
Qed.

(** ** Validation of the input *)

Lemma strip_spaces (s : string) :
  all_chars is_space s = true → strip s = EmptyString.
Proof.
  unfold strip. induction s as [| c s IH]; simpl; [done |].
  intros H. apply andb_prop in H as [Hc Hs]. rewrite Hc. by apply IH.
Qed.

(** When the city text is empty the run stops with exit code 1, and no
    request has been sent. *)
Lemma main_empty_city (rt : runtime) (w : env) (st : state) :
  prompt_failure w = None →
  city_of w = EmptyString →
  main rt w st =
    (Ok 1, add_events st (prelude w ++ [Print "No city provided. Exiting."]))
  ∧ existsb is_get (prelude w ++ [Print "No city provided. Exiting."]) = false.
Proof.
  intros Hprompt H. rewrite main_run, Hprompt, H. split; [done |].
  unfold prelude. by destruct (1 <? length (argv w))%nat.
Qed.

(** At the prompt, text made of white space only counts as empty. *)
Lemma main_blank_input (rt : runtime) (w : env) (st : state) (typed : string) :
  (length (argv w) ≤ 1)%nat →
  stdin_line w = Ok typed →
  all_chars is_space typed = true →
  (main rt w st).1 = Ok 1.
Proof.
  intros Hargs Htyped Hblank.
  assert ((1 <? length (argv w))%nat = false) as E by (apply Nat.ltb_ge; lia).
  assert (prompt_failure w = None) as Hprompt
    by (unfold prompt_failure; by rewrite E, Htyped).
  assert (city_of w = EmptyString) as H
    by (unfold city_of; rewrite E, Htyped; by apply strip_spaces).
  by rewrite (proj1 (main_empty_city rt w st Hprompt H)).
Qed.

(** When [input()] raises, so does [main]: the prompt is outside the [try]
    statement. *)
Lemma main_prompt_fails (rt : runtime) (w : env) (st : state) (e : exn) :
  prompt_failure w = Some e →
  main rt w st = (Raise e, after_prelude w st).
Proof. intros H. by rewrite main_run, H. Qed.

(** C3. Started with a single blank argument, the program does not stop
    with exit code 1: the argument is not stripped, the text " " passes the
    validation and the geocoding request is sent with it. *)
Theorem main_blank_argument_reaches_geocoder :
  all_chars is_space (city_of blank_argument_world) = true
  ∧ main sample_runtime blank_argument_world empty_disk =
      (Ok 2,
       mk_state ∅
         [ Print BANNER;
           Get GEO_URL [("name", VStr " "); ("count", VInt 1); ("language", VStr "en")];
           Print (not_found_message " ") ]).
Proof. split; reflexivity. Qed.

(** ** Exit codes *)

Lemma main_geocode_none (rt : runtime) (w : env) (st : state) :
  city_of w ≠ EmptyString →
  geocode_outcome rt w (city_of w) = Ok None →
  (main rt w st).1 = Ok 2.
Proof.
  intros Hcity Hgeo.
  by rewrite (main_run_city rt w st Hcity), try_except_main, main_try_run, Hgeo.
Qed.

(** C4. When [geocode_city] returns [None], [main] ends with exit code 2
    and the files are what they were: nothing is written to the log. *)
Theorem main_not_found (rt : runtime) (w : env) (st : state) :
  city_of w ≠ EmptyString →
  (geocode_city rt w (city_of w) (after_prelude w st)).1 = Ok None →
  main rt w st =
    (Ok 2,
     add_events st
       (prelude w ++ [ Get GEO_URL (geo_params (city_of w));
                       Print (not_found_message (city_of w)) ]))
  ∧ files (main rt w st).2 = files st.
Proof.
  intros Hcity Hgeo.
  rewrite geocode_city_run in Hgeo. simpl in Hgeo.
  rewrite (main_run_city rt w st Hcity), try_except_main, main_try_run, Hgeo.
  unfold after_prelude. by rewrite !add_events_add.
Qed.

Lemma main_not_found_witness :
  city_of nowhere_world ≠ EmptyString
  ∧ (main sample_runtime nowhere_world empty_disk).1 = Ok 2
  ∧ files (main sample_runtime nowhere_world empty_disk).2 = ∅.
Proof.
  assert (H1 : city_of nowhere_world ≠ EmptyString) by discriminate.
  assert (H2 : (geocode_city sample_runtime nowhere_world (city_of nowhere_world)
                  (after_prelude nowhere_world empty_disk)).1 = Ok None)
    by reflexivity.
  destruct (main_not_found sample_runtime nowhere_world empty_disk H1 H2) as [E F].
  split; [exact H1 |]. split; [| exact F].
  rewrite E. reflexivity.
Defined.

(** A run in which every step succeeds ends with exit code 0, having
    printed the summary and appended one line to the log. *)
Lemma main_success (rt : runtime) (w : env) (st : state)
    (lat lon : spec_float) (name : string) (wx temp hum wind : value)
    (condition : string) :
  city_of w ≠ EmptyString →
  geocode_outcome rt w (city_of w) = Ok (Some (lat, lon, name)) →
  weather_outcome w lat lon = Ok wx →
  current_conditions rt wx = Ok (temp, hum, wind, condition) →
  open_append w CSV_PATH = Ok tt →
  main rt w st =
    let line :=
      record_line [ now_local w; name; format_4f lat; format_4f lon;
                    cell rt temp; cell rt hum; cell rt wind; condition ] in
    let previous := files st !! CSV_PATH in
    (Ok 0,
     mk_state
       (<[CSV_PATH := log_text previous line]> (files st))
       (trace st ++ prelude w
          ++ [ Get GEO_URL (geo_params (city_of w));
               Get WEATHER_URL (weather_params lat lon) ]
          ++ summary rt name temp hum wind condition
          ++ log_writes CSV_PATH previous line
          ++ [Print (NL +:+ "Saved to " +:+ resolve w CSV_PATH)])).
Proof.
  intros Hcity Hgeo Hwx Hcur Hopen.
  rewrite (main_run_city rt w st Hcity), try_except_main, main_try_run,
    Hgeo, Hwx, Hcur, Hopen.
  unfold after_prelude, add_events, fields_of. simpl.
  by rewrite <- !app_assoc.
Qed.

(** C5. What a run of [main] comes to, in every case.  When [input()]
    raises at the prompt, [main] raises too: the prompt is outside the [try]
    statement and no exit code is given.  On an empty city text the code is
    1.  Otherwise the code is that of the [try] body when it returns, 0 or
    2; and when the body raises, the class of the exception decides: 3 for
    an [HTTPError], 4 for any other [RequestException], 5 for any other
    [Exception], while what is not an [Exception] leaves [main] as it is.
    The code is 0 when every step succeeds.  An [HTTPError] is an instance
    of [RequestException] too, and still gives 3; the classes that give 4
    are those of the transport failures and also that of a body that is not
    JSON. *)
Theorem main_exit_code_by_class (rt : runtime) (w : env) (st : state) :
  match prompt_failure w with
  | Some e => (main rt w st).1 = Raise e
  | None =>
      if String.eqb (city_of w) EmptyString then (main rt w st).1 = Ok 1
      else
        match (main_try rt w (city_of w) (after_prelude w st)).1 with
        | Ok code => (main rt w st).1 = Ok code ∧ (code = 0 ∨ code = 2)
        | Raise e =>
            (main rt w st).1 =
              if isinstance e HTTPError then Ok 3
              else if isinstance e RequestException then Ok 4
              else if isinstance e Exception then Ok 5
              else Raise e
        end
  end
  ∧ (∀ lat lon name wx temp hum wind condition,
       city_of w ≠ EmptyString →
       geocode_outcome rt w (city_of w) = Ok (Some (lat, lon, name)) →
       weather_outcome w lat lon = Ok wx →
       current_conditions rt wx = Ok (temp, hum, wind, condition) →
       open_append w CSV_PATH = Ok tt →
       (main rt w st).1 = Ok 0)
  ∧ (∀ e, isinstance e HTTPError = true →
          isinstance e RequestException = true ∧ exn_cls e = HTTPError)
  ∧ (∀ e, isinstance e HTTPError = false ∧ isinstance e RequestException = true
          ↔ exn_cls e ∈ [RequestException; ConnectionError; Timeout;
                          JSONDecodeError]).
Proof.
  split; [| split; [| split]].
  - rewrite main_run.
    destruct (prompt_failure w) as [e0 |]; [done |].
    destruct (String.eqb (city_of w) EmptyString); [done |].
    rewrite try_except_main.
    destruct (main_try rt w (city_of w) (after_prelude w st))
      as [[code | e] st'] eqn:E; cbn [fst].
    + split; [done |].
      apply (f_equal fst) in E. cbn [fst] in E. revert E. rewrite main_try_run.
      destruct (geocode_outcome rt w (city_of w)) as [[[[lat lon] name] |] | e];
        [| intros [= <-]; auto | discriminate].
      destruct (weather_outcome w lat lon) as [wx | e]; [| discriminate].
      destruct (current_conditions rt wx) as [[[[temp hum] wind] cond] | e];
        [| discriminate].
      destruct (open_append w CSV_PATH) as [[] | e]; [| discriminate].
      intros [= <-]. auto.
    + destruct e as [cls msg]. by destruct cls.
  - intros lat lon name wx temp hum wind condition Hcity Hgeo Hwx Hcur Hopen.
    by rewrite (main_success rt w st _ _ _ _ _ _ _ _ Hcity Hgeo Hwx Hcur Hopen).
  - intros [cls msg]. by destruct cls.
  - intros [cls msg]. cbn [exn_cls]. rewrite !elem_of_cons, elem_of_nil.
    destruct cls; split; try (intros [? ?]; discriminate); auto;
      intros [? | [? | [? | [? | []]]]]; discriminate.
Qed.

Lemma main_exit_code_by_class_witness :
  (main sample_runtime http_error_world empty_disk).1 = Ok 3.
Proof.
  exact (proj1 (main_exit_code_by_class sample_runtime http_error_world
                  empty_disk)).
Defined.

(** Two failures that are neither of an HTTP status nor of the transport and
    do not end with exit code 5: the end of the input at the prompt, which
    leaves [main] as an [EOFError], and a body that is not JSON, which ends
    with exit code 4. *)
Lemma other_failures_without_exit_code_5 :
  (main sample_runtime end_of_input_world empty_disk).1
  = Raise (mk_exn EOFError "EOF when reading a line")
  ∧ (main sample_runtime undecodable_body_world empty_disk).1 = Ok 4
  ∧ trace (main sample_runtime undecodable_body_world empty_disk).2
    = [ Print BANNER;
        Get GEO_URL [("name", VStr "Mumbai"); ("count", VInt 1);
                     ("language", VStr "en")];
        Print "Network error: Expecting value: line 1 column 1 (char 0)" ].
Proof. repeat split; reflexivity. Qed.

Example main_offline :
  (main sample_runtime offline_world empty_disk).1 = Ok 4.
Proof. reflexivity. Qed.

(** What is not an [Exception] leaves [main] as an exception. *)
Example main_interrupted :
  (main sample_runtime interrupted_world empty_disk).1 =
    Raise (mk_exn KeyboardInterrupt EmptyString).
Proof. reflexivity. Qed.

(** ** Missing code, unknown code *)

Lemma current_conditions_dict (rt : runtime) (wx : value) (cur : gmap string value) :
  get wx "current" (VDict ∅) = Ok (VDict cur) →
  current_conditions rt wx =
    let code := default VNone (cur !! "weather_code") in
    try! condition <-
      match code with
      | VNone => Ok "Unknown"
      | _ => decode_weather_code rt code
      end;
    Ok (default VNone (cur !! "temperature_2m"),
        default VNone (cur !! "relative_humidity_2m"),
        default VNone (cur !! "wind_speed_10m"),
        condition).
Proof. intros H. unfold current_conditions. rewrite H. reflexivity. Qed.

(** C8. A payload without a condition code (no key, or [null]) and a
    payload with a code outside the table give different condition texts,
    on the console and in the log: the first "Unknown", the second
    "Unknown (<code>)".  The decoder never answers the bare "Unknown", and
    it would raise if it were called on a missing code. *)
Theorem missing_code_is_not_unknown_code (rt : runtime) (w : env) (st : state)
    (lat lon : spec_float) (name : string) (wx : value) (cur : gmap string value) :
  city_of w ≠ EmptyString →
  geocode_outcome rt w (city_of w) = Ok (Some (lat, lon, name)) →
  weather_outcome w lat lon = Ok wx →
  get wx "current" (VDict ∅) = Ok (VDict cur) →
  open_append w CSV_PATH = Ok tt →
  let shown (condition : string) :=
    (main rt w st).1 = Ok 0
    ∧ Print ("  Condition:   " +:+ condition) ∈ trace (main rt w st).2
    ∧ files (main rt w st).2 !! CSV_PATH =
        Some (log_text (files st !! CSV_PATH)
                (record_line
                   [ now_local w; name; format_4f lat; format_4f lon;
                     cell rt (default VNone (cur !! "temperature_2m"));
                     cell rt (default VNone (cur !! "relative_humidity_2m"));
                     cell rt (default VNone (cur !! "wind_speed_10m"));
                     condition ])) in
  (cur !! "weather_code" = None ∨ cur !! "weather_code" = Some VNone →
     shown "Unknown")
  ∧ (∀ z, cur !! "weather_code" = Some (VInt z) → z ∉ table_codes →
          shown ("Unknown (" +:+ str_int z +:+ ")"))
  ∧ (∀ z, decode_weather_code rt (VInt z) ≠ Ok "Unknown")
  ∧ (∃ e, decode_weather_code rt VNone = Raise e).
Proof.
  intros Hcity Hgeo Hwx Hcur Hopen shown.
  assert (S : ∀ condition,
             current_conditions rt wx =
               Ok (default VNone (cur !! "temperature_2m"),
                   default VNone (cur !! "relative_humidity_2m"),
                   default VNone (cur !! "wind_speed_10m"), condition) →
             shown condition).
  { intros condition Hc. unfold shown.
    rewrite (main_success rt w st _ _ _ _ _ _ _ _ Hcity Hgeo Hwx Hc Hopen).
    cbn zeta. cbn [fst snd files trace].
    split; [done |]. split; [| by rewrite lookup_insert_eq].
    unfold summary. rewrite !elem_of_app. do 3 right. left.
    rewrite !elem_of_cons. auto 10. }
  split; [| split; [| split]].
  - intros Hcode. apply S.
    rewrite (current_conditions_dict rt wx cur Hcur).
    by destruct Hcode as [-> | ->].
  - intros z Hcode Hz. apply S.
    rewrite (current_conditions_dict rt wx cur Hcur), Hcode.
    change (default VNone (Some (VInt z))) with (VInt z). cbv zeta iota.
    by rewrite (decode_weather_code_unknown rt z Hz).
  - apply decode_weather_code_not_bare.
  - eexists. reflexivity.
Qed.

Lemma missing_code_is_not_unknown_code_witness :
  Print "  Condition:   Unknown"
    ∈ trace (main sample_runtime (mumbai_world no_code) empty_disk).2.
Proof.
  assert (H1 : city_of (mumbai_world no_code) ≠ EmptyString) by discriminate.
  pose proof (missing_code_is_not_unknown_code sample_runtime
                (mumbai_world no_code) empty_disk
                mumbai_lat mumbai_lon "Mumbai, India" (weather no_code) no_code
                H1 eq_refl eq_refl eq_refl eq_refl) as [Hmissing _].
  exact (proj1 (proj2 (Hmissing (or_introl eq_refl)))).
Defined.

Example unknown_code_run :
  files (main sample_runtime (mumbai_world (<["weather_code" := VInt 100]> no_code))
           empty_disk).2 !! CSV_PATH =
    Some (header_line +:+
          "2024-01-02 03:04:05," +:+ char DQUOTE +:+ "Mumbai, India" +:+ char DQUOTE
          +:+ ",19.0760,72.8777,30,70,12,Unknown (100)" +:+ CRLF).
Proof. reflexivity. Qed.

(** ** The geocoder *)

Lemma geocode_result_dict (rt : runtime) (resp : response) (d : gmap string value) :
  raise_for_status resp = Ok tt →
  json resp = Ok (VDict d) →
  geocode_result rt resp =
    let found := default VNone (d !! "results") in
    let results := if truthy found then found else VList [] in
    if negb (truthy results) then Ok None
    else
      try! r <- first results;
      try! name <- get r "name" (VStr "?");
      try! country <- get r "country" (VStr "?");
      let resolved := py_str rt name +:+ ", " +:+ py_str rt country in
      try! lat_v <- getitem r "latitude";
      try! lat <- py_float rt lat_v;
      try! lon_v <- getitem r "longitude";
      try! lon <- py_float rt lon_v;
      Ok (Some (lat, lon, resolved)).
Proof. intros H1 H2. unfold geocode_result. by rewrite H1, H2. Qed.

(** C9. A response without a "results" key, with a [null] one or with an
    empty array makes [geocode_city] return [None] without raising, and
    [main] ends with exit code 2. *)
Theorem geocode_no_results (rt : runtime) (w : env) (st : state)
    (resp : response) (d : gmap string value) :
  city_of w ≠ EmptyString →
  requests_get w GEO_URL (geo_params (city_of w)) = Ok resp →
  raise_for_status resp = Ok tt →
  json resp = Ok (VDict d) →
  d !! "results" = None ∨ d !! "results" = Some VNone
    ∨ d !! "results" = Some (VList []) →
  (geocode_city rt w (city_of w) (after_prelude w st)).1 = Ok None
  ∧ (main rt w st).1 = Ok 2.
Proof.
  intros Hcity Hget Hstatus Hjson Hres.
  assert (G : geocode_outcome rt w (city_of w) = Ok None).
  { unfold geocode_outcome. rewrite Hget.
    cbn [rbind]. rewrite (geocode_result_dict rt resp d Hstatus Hjson).
    by destruct Hres as [-> | [-> | ->]]. }
  split; [by rewrite geocode_city_run | by apply main_geocode_none].
Qed.

Lemma geocode_no_results_witness :
  (main sample_runtime null_results_world empty_disk).1 = Ok 2.
Proof.
  assert (H : city_of null_results_world ≠ EmptyString) by discriminate.
  exact (proj2 (geocode_no_results sample_runtime null_results_world empty_disk
                  {| raise_for_status := Ok tt;
                     json := Ok (VDict {[ "results" := VNone ]}) |}
                  {[ "results" := VNone ]}
                  H eq_refl eq_refl eq_refl (or_intror (or_introl eq_refl)))).
Defined.

Lemma main_geocode_raises (rt : runtime) (w : env) (st : state) (e : exn) :
  city_of w ≠ EmptyString →
  geocode_outcome rt w (city_of w) = Raise e →
  isinstance e Exception = true →
  (main rt w st).1 = Ok (except_exit_code e).
Proof.
  intros Hcity Hgeo Hexn.
  rewrite (main_run_city rt w st Hcity), try_except_main, main_try_run, Hgeo.
  cbv zeta iota beta. by rewrite Hexn.
Qed.

Lemma py_float_raises (rt : runtime) (v : value) (e : exn) :
  py_float rt v = Raise e →
  except_exit_code e = 5 ∧ isinstance e RequestException = false
  ∧ isinstance e Exception = true.
Proof.
  destruct v as [| b | z | f | s | l | d]; simpl;
    repeat case_match; intros [= <-]; done.
Qed.

(** C10. When the first result has no "name" or no "country" the display
    name has "?" in its place; when it has no "latitude" or no "longitude"
    [geocode_city] raises, with an exception that is not a
    [RequestException], and [main] ends with exit code 5. *)
Theorem geocode_missing_fields (rt : runtime) (w : env) (st : state)
    (resp : response) (d r : gmap string value) (rest : list value) :
  city_of w ≠ EmptyString →
  requests_get w GEO_URL (geo_params (city_of w)) = Ok resp →
  raise_for_status resp = Ok tt →
  json resp = Ok (VDict d) →
  d !! "results" = Some (VList (VDict r :: rest)) →
  (∀ la lo lat lon,
     r !! "latitude" = Some la → r !! "longitude" = Some lo →
     py_float rt la = Ok lat → py_float rt lo = Ok lon →
     (geocode_city rt w (city_of w) (after_prelude w st)).1 =
       Ok (Some (lat, lon,
                 py_str rt (default (VStr "?") (r !! "name")) +:+ ", "
                   +:+ py_str rt (default (VStr "?") (r !! "country")))))
  ∧ (r !! "latitude" = None ∨ r !! "longitude" = None →
     ∃ e, (geocode_city rt w (city_of w) (after_prelude w st)).1 = Raise e
          ∧ isinstance e HTTPError = false
          ∧ isinstance e RequestException = false
          ∧ (main rt w st).1 = Ok 5).
Proof.
  intros Hcity Hget Hstatus Hjson Hres.
  assert (G : geocode_outcome rt w (city_of w) =
              let name := default (VStr "?") (r !! "name") in
              let country := default (VStr "?") (r !! "country") in
              try! lat_v <- getitem (VDict r) "latitude";
              try! lat <- py_float rt lat_v;
              try! lon_v <- getitem (VDict r) "longitude";
              try! lon <- py_float rt lon_v;
              Ok (Some (lat, lon, py_str rt name +:+ ", " +:+ py_str rt country))).
  { unfold geocode_outcome. rewrite Hget. cbn [rbind].
    rewrite (geocode_result_dict rt resp d Hstatus Hjson), Hres. reflexivity. }
  split.
  - intros la lo lat lon Hla Hlo Hlat Hlon.
    rewrite geocode_city_run, G. unfold getitem. rewrite Hla, Hlo.
    cbn [fst rbind]. by rewrite Hlat, Hlon.
  - intros Hmissing.
    assert (∃ e, geocode_outcome rt w (city_of w) = Raise e
                 ∧ except_exit_code e = 5
                 ∧ isinstance e RequestException = false
                 ∧ isinstance e Exception = true)
      as (e & He & Hcode & Hreq & Hexn).
    { rewrite G. unfold getitem. cbv zeta.
      destruct (r !! "latitude") as [la |] eqn:Ela.
      - destruct Hmissing as [? | Elo]; [done |]. rewrite Elo. cbn [rbind].
        destruct (py_float rt la) as [lat | e] eqn:Elat.
        + eexists. split; [reflexivity | done].
        + exists e. split; [reflexivity |]. by apply (py_float_raises rt la).
      - eexists. split; [reflexivity | done]. }
    exists e. rewrite geocode_city_run.
    split; [exact He |]. split; [| split; [exact Hreq |]].
    + destruct e as [cls msg]. by destruct cls.
    + by rewrite (main_geocode_raises rt w st e Hcity He Hexn), Hcode.
Qed.

Lemma geocode_missing_fields_witness :
  ∃ e, (geocode_city sample_runtime no_coordinates_world
          (city_of no_coordinates_world)
          (after_prelude no_coordinates_world empty_disk)).1 = Raise e
       ∧ isinstance e HTTPError = false
       ∧ isinstance e RequestException = false
       ∧ (main sample_runtime no_coordinates_world empty_disk).1 = Ok 5.
Proof.
  assert (H : city_of no_coordinates_world ≠ EmptyString) by discriminate.
  exact (proj2 (geocode_missing_fields sample_runtime no_coordinates_world
                  empty_disk
                  {| raise_for_status := Ok tt;
                     json := Ok (VDict {[ "results" :=
                               VList [VDict {[ "name" := VStr "Mumbai" ]}] ]}) |}
                  {[ "results" := VList [VDict {[ "name" := VStr "Mumbai" ]}] ]}
                  {[ "name" := VStr "Mumbai" ]} []
                  H eq_refl eq_refl eq_refl eq_refl)
           (or_introl eq_refl)).
Defined.

(** Without a country the display name ends in a question mark. *)
Example geocode_without_country :
  geocode_outcome sample_runtime
    (world ["weather_fetcher.py"; "Mumbai"] EmptyString
       (fun _ _ => answer (VDict {[ "results" :=
                     VList [VDict (delete "country" mumbai_place)] ]})))
    "Mumbai"
  = Ok (Some (mumbai_lat, mumbai_lon, "Mumbai, ?")).
Proof. reflexivity. Qed.

(** ** The log file *)

(** C6. One call of [save_to_csv] writes the header if and only if
    the file did not exist: on a missing file it writes the header and then
    the row, so the file is the header line followed by the row; on an
    existing file it writes the row alone, after what the file held.  No
    other file changes. *)
Theorem save_to_csv_header (rt : runtime) (w : env)
    (rowdict : gmap string value) (fields : list value) (path : string)
    (st : state) :
  open_append w path = Ok tt →
  dict_to_list rowdict = Ok fields →
  let line := record_line (cell rt <$> fields) in
  let st' := (save_to_csv rt w rowdict path st).2 in
  (save_to_csv rt w rowdict path st).1 = Ok tt
  ∧ (files st !! path = None →
       files st' !! path = Some (header_line +:+ line)
       ∧ trace st' = (trace st ++ [Write path header_line; Write path line])%list)
  ∧ (∀ old, files st !! path = Some old →
       files st' !! path = Some (old +:+ line)
       ∧ trace st' = (trace st ++ [Write path line])%list)
  ∧ (∀ other, other ≠ path → files st' !! other = files st !! other)
  ∧ header_line =
      "timestamp_local,city,lat,lon,temperature_c,humidity_pct,wind_kmh,condition"
        +:+ CRLF.
Proof.
  intros Hopen Hrow line st'. subst st'.
  rewrite (save_to_csv_run rt w rowdict fields path st Hopen Hrow).
  cbv zeta. cbn [fst snd files trace]. fold line.
  split; [done |]. split; [| split; [| split]].
  - intros E. rewrite lookup_insert_eq, E. done.
  - intros old E. rewrite lookup_insert_eq, E. done.
  - intros other Hne. by rewrite lookup_insert_ne.
  - reflexivity.
Qed.

Example record_line_mumbai :
  record_line (fields_of sample_runtime mumbai_reading) = mumbai_line.
Proof. reflexivity. Qed.

Lemma save_to_csv_header_witness :
  files (save_to_csv sample_runtime nowhere_world (row_of mumbai_reading)
           CSV_PATH disk_with_log).2 !! CSV_PATH
    = Some (header_line +:+ mumbai_line)
  ∧ files (save_to_csv sample_runtime nowhere_world (row_of mumbai_reading)
             CSV_PATH empty_disk).2 !! CSV_PATH
    = Some (header_line +:+ mumbai_line).
Proof.
  split.
  - exact (proj1 (proj1 (proj2 (proj2
      (save_to_csv_header sample_runtime nowhere_world (row_of mumbai_reading)
         _ CSV_PATH disk_with_log eq_refl
         (dict_to_list_row_of sample_runtime mumbai_reading))))
      header_line eq_refl)).
  - exact (proj1 (proj1 (proj2
      (save_to_csv_header sample_runtime nowhere_world (row_of mumbai_reading)
         _ CSV_PATH empty_disk eq_refl
         (dict_to_list_row_of sample_runtime mumbai_reading)))
      eq_refl)).
Defined.

Lemma cells_row_of (rt : runtime) (rd : reading) :
  cell rt <$> [ VStr (r_now rd); VStr (r_city rd); VStr (format_4f (r_lat rd));
                VStr (format_4f (r_lon rd)); r_temp rd; r_hum rd; r_wind rd;
                VStr (r_condition rd) ]
  = fields_of rt rd.
Proof. reflexivity. Qed.

Lemma log_text_app (previous : option string) (a b : string) :
  log_text (Some (log_text previous a)) b = log_text previous (a +:+ b).
Proof. destruct previous; unfold log_text; by rewrite append_assoc. Qed.

(** Appending one row or more leaves the earlier content in place, puts the
    header first when there was no file, and adds the rows in order. *)
Lemma append_all_run (rt : runtime) (w : env) (rds : list reading)
    (path : string) (st : state) :
  open_append w path = Ok tt →
  rds ≠ [] →
  (append_all rt w (row_of <$> rds) path st).1 = Ok tt
  ∧ files (append_all rt w (row_of <$> rds) path st).2 =
      <[path := log_text (files st !! path)
                  (concat_lines (record_line <$> (fields_of rt <$> rds)))]>
        (files st).
Proof.
  intros Hopen. revert st.
  induction rds as [| rd rds IH]; intros st Hne; [done |].
  cbn [fmap list_fmap append_all concat_lines]. unfold bind.
  rewrite (save_to_csv_run rt w _ _ path st Hopen (dict_to_list_row_of rt rd)).
  cbv zeta. rewrite cells_row_of.
  destruct rds as [| rd' rds].
  - cbn [fmap list_fmap append_all concat_lines ret fst snd files].
    by rewrite append_nil_r.
  - destruct (IH (mk_state
        (<[path := log_text (files st !! path) (record_line (fields_of rt rd))]>
           (files st))
        (trace st ++ log_writes path (files st !! path)
                       (record_line (fields_of rt rd))))) as [R F]; [done |].
    split; [exact R |].
    rewrite F. cbn [files].
    by rewrite lookup_insert_eq, insert_insert_eq, log_text_app.
Qed.

Lemma fields_of_shape (rt : runtime) (rd : reading) :
  is_finite (r_lat rd) = true → is_finite (r_lon rd) = true →
  length (fields_of rt rd) = 8%nat
  ∧ ∃ la lo, fields_of rt rd !! 2%nat = Some la ∧ fields_of rt rd !! 3%nat = Some lo
             ∧ four_decimals la = true ∧ four_decimals lo = true.
Proof.
  intros Hlat Hlon. split; [done |].
  exists (format_4f (r_lat rd)), (format_4f (r_lon rd)).
  split; [done |]. split; [done |].
  split; by apply four_decimals_format_4f.
Qed.

(** C7, as the program has it. Appending one row or more, built by [main]
    from finite coordinates, to a file that does not exist gives a file that
    reads back as the header record followed by one record per row, in
    order: every record has eight fields, in the order of the header, and
    the third and fourth field of a row are a number with exactly four
    digits after the point. *)
Theorem append_all_fresh (rt : runtime) (w : env) (rds : list reading)
    (path : string) (st : state) :
  rds ≠ [] →
  files st !! path = None →
  open_append w path = Ok tt →
  Forall (fun rd => is_finite (r_lat rd) = true ∧ is_finite (r_lon rd) = true) rds →
  ∃ content,
    files (append_all rt w (row_of <$> rds) path st).2 !! path = Some content
    ∧ content = header_line +:+ concat_lines (record_line <$> (fields_of rt <$> rds))
    ∧ csv_reader content = fieldnames :: (fields_of rt <$> rds)
    ∧ length (csv_reader content) = S (length rds)
    ∧ Forall (fun fs => length fs = 8%nat) (csv_reader content)
    ∧ Forall (fun fs => ∃ la lo, fs !! 2%nat = Some la ∧ fs !! 3%nat = Some lo
                                 ∧ four_decimals la = true
                                 ∧ four_decimals lo = true)
        (fields_of rt <$> rds).
Proof.
  intros Hne Hfresh Hopen Hfinite.
  destruct (append_all_run rt w rds path st Hopen Hne) as [_ F].
  exists (header_line +:+ concat_lines (record_line <$> (fields_of rt <$> rds))).
  split; [by rewrite F, lookup_insert_eq, Hfresh |].
  split; [reflexivity |].
  assert (R : csv_reader (header_line +:+
                concat_lines (record_line <$> (fields_of rt <$> rds)))
              = fieldnames :: (fields_of rt <$> rds)).
  { apply (csv_reader_record_lines (fieldnames :: (fields_of rt <$> rds))). }
  rewrite R. split; [done |].
  split; [by rewrite length_cons, length_fmap |].
  split.
  - apply Forall_cons. split; [done |].
    apply Forall_fmap. eapply Forall_impl; [exact Hfinite |].
    intros rd [Hlat Hlon]. by apply fields_of_shape.
  - apply Forall_fmap. eapply Forall_impl; [exact Hfinite |].
    intros rd [Hlat Hlon]. by apply fields_of_shape.
Qed.

Lemma append_all_fresh_witness :
  ∃ content,
    files (append_all sample_runtime nowhere_world
             (row_of <$> [mumbai_reading; mumbai_reading]) CSV_PATH empty_disk).2
      !! CSV_PATH = Some content
    ∧ content = header_line +:+ mumbai_line +:+ mumbai_line.
Proof.
  assert (H1 : [mumbai_reading; mumbai_reading] ≠ []) by discriminate.
  assert (H2 : Forall (fun rd => is_finite (r_lat rd) = true
                                 ∧ is_finite (r_lon rd) = true)
                 [mumbai_reading; mumbai_reading])
    by (repeat constructor).
  destruct (append_all_fresh sample_runtime nowhere_world
              [mumbai_reading; mumbai_reading] CSV_PATH empty_disk
              H1 eq_refl eq_refl H2) as (content & Hfile & Hcontent & _).
  exists content. split; [exact Hfile |].
  rewrite Hcontent. reflexivity.
Defined.

(** C7, read for every number of rows and every coordinate, fails in two
    ways.  For no row at all nothing is appended, so there is no file and no
    header line.  And a run whose latitude is infinite succeeds and logs a
    row whose latitude field has no decimals. *)
Lemma fresh_log_counterexamples :
  (¬ ∃ content,
       files (append_all sample_runtime nowhere_world [] CSV_PATH empty_disk).2
         !! CSV_PATH = Some content
       ∧ csv_reader content = [fieldnames])
  ∧ (∃ content,
       main sample_runtime infinite_latitude_world empty_disk
         = (Ok 0, (main sample_runtime infinite_latitude_world empty_disk).2)
       ∧ files (main sample_runtime infinite_latitude_world empty_disk).2
           !! CSV_PATH = Some content
       ∧ csv_reader content =
           [ fieldnames;
             [ "2024-01-02 03:04:05"; "Mumbai, India"; "inf"; "72.8777";
               "30"; "70"; "12"; "Unknown" ] ]
       ∧ four_decimals "inf" = false).
Proof.
  split.
  - intros (content & H & _). discriminate H.
  - eexists. split; [reflexivity |]. split; [reflexivity |].
    split; reflexivity.
Qed.

(** A coordinate that is not finite is written without any decimals. *)
Example format_4f_infinite :
  format_4f (S754_infinity false) = "inf"
  ∧ four_decimals (format_4f (S754_infinity false)) = false
  ∧ four_decimals (format_4f S754_nan) = false.
Proof. repeat split. Qed.

(** * Further properties *)

(** ** The shape of every run *)

Lemma new_events_add (st : state) (evs : list event) :
  new_events st (add_events st evs) = evs.
Proof.
  unfold new_events, add_events. cbn [trace]. by rewrite drop_app_length.
Qed.

Lemma new_events_trace (st : state) (fs : gmap string string) (evs : list event) :
  new_events st (mk_state fs (trace st ++ evs)) = evs.
Proof. unfold new_events. cbn [trace]. by rewrite drop_app_length. Qed.

(** Splits a goal about [main rt w st] into the ways a run can go; the
    hypotheses name the step that decided it. *)
Ltac main_cases rt w st :=
  rewrite (main_run rt w st);
  destruct (prompt_failure w) as [e0 |] eqn:Hprompt;
  [| destruct (String.eqb (city_of w) EmptyString) eqn:Hcity;
     [| rewrite try_except_main, main_try_run;
        destruct (geocode_outcome rt w (city_of w))
          as [[[[lat lon] name] |] | e] eqn:Hgeo;
        [ destruct (weather_outcome w lat lon) as [wx | e] eqn:Hwx;
          [ destruct (current_conditions rt wx)
              as [[[[temp hum] wind] cond] | e] eqn:Hcur;
            [ destruct (open_append w CSV_PATH) as [[] | e] eqn:Hopen | ] | ]
        | | ] ] ];
  cbv zeta iota beta;
  try match goal with
      | |- context [isinstance ?x Exception] =>
          destruct (isinstance x Exception) eqn:Hexn
      end;
  unfold after_prelude; rewrite ?add_events_add.

Lemma record_line_nonempty (fields : list string) :
  record_line fields ≠ EmptyString.
Proof.
  assert (H : ∀ a, a +:+ CRLF ≠ EmptyString) by (intros []; discriminate).
  unfold record_line. repeat case_match; (apply H || discriminate).
Qed.

Lemma except_exit_code_range (e : exn) : 3 ≤ except_exit_code e ≤ 5.
Proof. unfold except_exit_code. destruct (exn_cls e); lia. Qed.

(** X1. When [main] returns, its exit code is one of 0 to 5; when it
    raises instead, the exception is the one [input()] raised at the prompt,
    or one that is not an [Exception]. *)
Theorem main_returns_0_to_5 (rt : runtime) (w : env) (st : state) :
  match (main rt w st).1 with
  | Ok code => 0 ≤ code ≤ 5
  | Raise e => prompt_failure w = Some e ∨ isinstance e Exception = false
  end.
Proof.
  main_cases rt w st; cbn [fst]; auto; try lia.
  all: pose proof (except_exit_code_range e); lia.
Qed.

(** X2. [main] changes no file but the log, and the log it only
    extends: what it held stays at its start.  The files are touched only
    once both requests and the reading of the payload have succeeded, so a
    run that ends with exit code 1, 2, 3 or 4 leaves every file as it was;
    a run that ends with exit code 0 has added a line to the log. *)
Theorem main_only_extends_the_log (rt : runtime) (w : env) (st : state) :
  (∀ path, path ≠ CSV_PATH →
     files (main rt w st).2 !! path = files st !! path)
  ∧ (∀ old, files st !! CSV_PATH = Some old →
       ∃ added, files (main rt w st).2 !! CSV_PATH = Some (old +:+ added))
  ∧ (files (main rt w st).2 ≠ files st →
       prompt_failure w = None ∧ city_of w ≠ EmptyString
       ∧ ∃ lat lon name wx temp hum wind condition,
           geocode_outcome rt w (city_of w) = Ok (Some (lat, lon, name))
           ∧ weather_outcome w lat lon = Ok wx
           ∧ current_conditions rt wx = Ok (temp, hum, wind, condition))
  ∧ (∀ code, (main rt w st).1 = Ok code → 1 ≤ code ≤ 4 →
       files (main rt w st).2 = files st)
  ∧ ((main rt w st).1 = Ok 0 →
       ∃ line, files (main rt w st).2 !! CSV_PATH
               = Some (log_text (files st !! CSV_PATH) line)
               ∧ line ≠ EmptyString).
Proof.
  assert (U : ∀ (r : result Z) (P : Prop),
            (r = Ok 0 → False) →
            (∀ path, path ≠ CSV_PATH → files st !! path = files st !! path)
            ∧ (∀ old, files st !! CSV_PATH = Some old →
                 ∃ added, files st !! CSV_PATH = Some (old +:+ added))
            ∧ (files st ≠ files st → P)
            ∧ (∀ code, r = Ok code → 1 ≤ code ≤ 4 → files st = files st)
            ∧ (r = Ok 0 →
                 ∃ line, files st !! CSV_PATH
                         = Some (log_text (files st !! CSV_PATH) line)
                         ∧ line ≠ EmptyString)).
  { intros r P Hr. split; [done |]. split; [| split; [done |]].
    - intros old Hold. exists EmptyString. by rewrite append_nil_r.
    - split; [done | by intros ?]. }
  main_cases rt w st; cbn [fst snd files add_events].
  all: try (apply U; intros [= H]; pose proof (except_exit_code_range e); lia).
  all: try (apply U; discriminate).
  split; [intros path Hne; by rewrite lookup_insert_ne |].
  split; [| split; [| split]].
  - intros old Hold. rewrite lookup_insert_eq, Hold. cbn [log_text]. eauto.
  - intros _. split; [done |]. split; [by apply String.eqb_neq |].
    by exists lat, lon, name, wx, temp, hum, wind, cond.
  - intros code [= <-]. lia.
  - intros _. eexists. rewrite lookup_insert_eq. split; [reflexivity |].
    apply record_line_nonempty.
Qed.

(** X3. A run sends at most two requests and never repeats one: none when
    the city text is empty or the prompt fails; otherwise the geocoding
    request, with the city text as it is, one result asked for, in English;
    and after it the weather request, only when the geocoder found a place,
    with the coordinates it returned. *)
Theorem main_requests (rt : runtime) (w : env) (st : state) :
  List.filter is_get (new_events st (main rt w st).2) =
    match prompt_failure w with
    | Some _ => []
    | None =>
        if String.eqb (city_of w) EmptyString then []
        else
          Get GEO_URL [ ("name", VStr (city_of w)); ("count", VInt 1);
                        ("language", VStr "en") ]
          :: match geocode_outcome rt w (city_of w) with
             | Ok (Some (lat, lon, _)) =>
                 [ Get WEATHER_URL
                     [ ("latitude", VFloat lat); ("longitude", VFloat lon);
                       ("current",
                        VList [ VStr "temperature_2m"; VStr "relative_humidity_2m";
                                VStr "wind_speed_10m"; VStr "weather_code" ]);
                       ("timezone", VStr "auto") ] ]
             | _ => []
             end
    end.
Proof.
  main_cases rt w st; cbn [snd]; unfold add_events; cbn [trace files];
    rewrite <- ?app_assoc, new_events_trace;
    unfold prelude, summary, log_writes;
    destruct (1 <? length (argv w))%nat; try destruct (files st !! CSV_PATH);
    reflexivity.
Qed.

(** ** The input *)

Lemma rstrip_empty (s : string) :
  rstrip s = EmptyString → all_chars is_space s = true.
Proof.
  induction s as [| c s IH]; [done |]. simpl.
  destruct (rstrip s) as [| c' t]; [| discriminate].
  destruct (is_space c); [| discriminate]. intros _. by apply IH.
Qed.

Lemma lstrip_spaces (s : string) :
  all_chars is_space (lstrip s) = true → all_chars is_space s = true.
Proof.
  induction s as [| c s IH]; [done |]. simpl.
  destruct (is_space c) eqn:E; [apply IH |].
  simpl. by rewrite E.
Qed.

Lemma strip_empty_iff (s : string) :
  strip s = EmptyString ↔ all_chars is_space s = true.
Proof.
  split; [| apply strip_spaces].
  intros H. by apply lstrip_spaces, rstrip_empty.
Qed.

Lemma join_empty_iff (sep a : string) (rest : list string) :
  sep ≠ EmptyString →
  join sep (a :: rest) = EmptyString ↔ a = EmptyString ∧ rest = [].
Proof.
  intros Hsep. split.
  - destruct rest as [| b rest]; cbn [join]; [by intros -> |]. destruct a; [| discriminate]. destruct sep; [done | discriminate].
  - by intros [-> ->].
Qed.

Lemma main_exit_1 (rt : runtime) (w : env) (st : state) :
  (main rt w st).1 = Ok 1 ↔ prompt_failure w = None ∧ city_of w = EmptyString.
Proof.
  split.
  - main_cases rt w st; cbn [fst]; try discriminate.
    + intros _. split; [done |]. by apply String.eqb_eq.
    + intros [= H]. pose proof (except_exit_code_range e). lia.
    + intros [= H]. pose proof (except_exit_code_range e). lia.
    + intros [= H]. pose proof (except_exit_code_range e). lia.
    + intros [= H]. pose proof (except_exit_code_range e). lia.
  - intros [Hprompt Hcity].
    by rewrite (proj1 (main_empty_city rt w st Hprompt Hcity)).
Qed.

(** X4. The run ends with exit code 1 exactly when the city text is
    empty.  At the prompt, for a typed line whose characters are all below
    code point 256 (the lines a [string] stands for): when every character
    of the line is white space (code points 9 to 13, 28 to 32, 133 and
    160), the empty line included.  With arguments: when there is a single
    argument and it is empty (an argument of spaces, or two empty
    arguments, are not rejected). *)
Theorem main_rejects_empty_input (rt : runtime) (w : env) (st : state) :
  (∀ typed, (length (argv w) ≤ 1)%nat → stdin_line w = Ok typed →
     ((main rt w st).1 = Ok 1 ↔ all_chars is_space typed = true))
  ∧ (∀ prog arg rest, argv w = prog :: arg :: rest →
     ((main rt w st).1 = Ok 1 ↔ arg = EmptyString ∧ rest = [])).
Proof.
  split.
  - intros typed Hargs Htyped.
    assert ((1 <? length (argv w))%nat = false) as E by (apply Nat.ltb_ge; lia).
    rewrite main_exit_1. unfold prompt_failure, city_of. rewrite E, Htyped.
    rewrite strip_empty_iff. tauto.
  - intros prog arg rest Hargv.
    rewrite main_exit_1. unfold prompt_failure, city_of. rewrite Hargv.
    cbn [length Nat.ltb Nat.leb drop].
    rewrite join_empty_iff by discriminate. tauto.
Qed.

(** X5. With arguments on the command line the program does not
    prompt, and what would have been typed does not matter. *)
Theorem main_with_arguments (rt : runtime) (w : env) (st : state)
    (typed : result string) :
  (1 < length (argv w))%nat →
  main rt (with_stdin w typed) st = main rt w st
  ∧ List.filter is_input (new_events st (main rt w st).2) = [].
Proof.
  intros Hargs. apply Nat.ltb_lt in Hargs. split.
  - unfold main. cbn [argv with_stdin]. rewrite Hargs. reflexivity.
  - main_cases rt w st; cbn [snd]; unfold add_events; cbn [trace files];
      rewrite <- ?app_assoc, new_events_trace;
      unfold prelude, summary, log_writes;
      rewrite Hargs; try destruct (files st !! CSV_PATH); reflexivity.
Qed.

Lemma main_with_arguments_witness :
  main sample_runtime
    (with_stdin (mumbai_world no_code) (Raise (mk_exn EOFError EmptyString)))
    empty_disk
  = main sample_runtime (mumbai_world no_code) empty_disk.
Proof.
  exact (proj1 (main_with_arguments sample_runtime (mumbai_world no_code)
                  empty_disk (Raise (mk_exn EOFError EmptyString))
                  ltac:(cbn; lia))).
Defined.

(** ** The weather step *)

(** X6. [fetch_weather] sends one request, to the weather endpoint, and
    touches no file.  A failure of the request comes out as it is; a bad
    status comes out before the body is looked at; otherwise the decoded
    body is returned unchanged, or the exception its decoding raised. *)
Theorem fetch_weather_behaviour (w : env) (lat lon : spec_float) (st : state) :
  files (fetch_weather w lat lon st).2 = files st
  ∧ new_events st (fetch_weather w lat lon st).2
    = [Get WEATHER_URL (weather_params lat lon)]
  ∧ (∀ e, requests_get w WEATHER_URL (weather_params lat lon) = Raise e →
       (fetch_weather w lat lon st).1 = Raise e)
  ∧ (∀ resp e, requests_get w WEATHER_URL (weather_params lat lon) = Ok resp →
       raise_for_status resp = Raise e →
       (fetch_weather w lat lon st).1 = Raise e)
  ∧ (∀ resp, requests_get w WEATHER_URL (weather_params lat lon) = Ok resp →
       raise_for_status resp = Ok tt →
       (fetch_weather w lat lon st).1 = json resp).
Proof.
  rewrite fetch_weather_run. cbn [fst snd]. unfold weather_outcome, weather_result.
  split; [done |]. split; [apply new_events_add |].
  split; [| split].
  - by intros e ->.
  - intros resp e H1 H2. rewrite H1. cbn [rbind]. by rewrite H2.
  - intros resp H1 H2. rewrite H1. cbn [rbind]. by rewrite H2.
Qed.

Lemma main_conditions_raise (rt : runtime) (w : env) (st : state)
    (lat lon : spec_float) (name : string) (wx : value) (e : exn) :
  city_of w ≠ EmptyString →
  geocode_outcome rt w (city_of w) = Ok (Some (lat, lon, name)) →
  weather_outcome w lat lon = Ok wx →
  current_conditions rt wx = Raise e →
  isinstance e Exception = true →
  main rt w st =
    (Ok (except_exit_code e),
     add_events st
       (prelude w ++ [ Get GEO_URL (geo_params (city_of w));
                       Get WEATHER_URL (weather_params lat lon);
                       Print (diagnostic e) ])).
Proof.
  intros Hcity Hgeo Hwx Hcur Hexn.
  rewrite (main_run_city rt w st Hcity), try_except_main, main_try_run,
    Hgeo, Hwx, Hcur.
  cbv zeta iota beta. rewrite Hexn.
  unfold after_prelude. by rewrite !add_events_add.
Qed.

(** X7. A weather payload without a "current" key is read as one without
    any reading: the run succeeds, shows [None] for the three readings and
    "Unknown" for the condition, and logs three empty fields.  A payload
    whose "current" is there but is not an object (a [null], say) ends the
    run with exit code 5 before anything is shown or logged. *)
Theorem weather_payload_current (rt : runtime) (w : env) (st : state)
    (lat lon : spec_float) (name : string) (d : gmap string value) :
  city_of w ≠ EmptyString →
  geocode_outcome rt w (city_of w) = Ok (Some (lat, lon, name)) →
  weather_outcome w lat lon = Ok (VDict d) →
  open_append w CSV_PATH = Ok tt →
  (d !! "current" = None →
     (main rt w st).1 = Ok 0
     ∧ (∀ ev, ev ∈ [ Print ("  Temperature: None " +:+ DEGREE +:+ "C");
                     Print "  Humidity:    None %";
                     Print "  Wind:        None km/h";
                     Print "  Condition:   Unknown" ] →
              ev ∈ trace (main rt w st).2)
     ∧ files (main rt w st).2 !! CSV_PATH =
         Some (log_text (files st !! CSV_PATH)
                 (record_line [ now_local w; name; format_4f lat; format_4f lon;
                                EmptyString; EmptyString; EmptyString;
                                "Unknown" ])))
  ∧ (∀ v, d !! "current" = Some v → (∀ cur, v ≠ VDict cur) →
     main rt w st =
       (Ok 5,
        add_events st
          (prelude w ++
           [ Get GEO_URL (geo_params (city_of w));
             Get WEATHER_URL (weather_params lat lon);
             Print ("Unexpected error: '" +:+ type_name v
                      +:+ "' object has no attribute 'get'") ]))).
Proof.
  intros Hcity Hgeo Hwx Hopen. split.
  - intros Hcur.
    assert (C : current_conditions rt (VDict d) = Ok (VNone, VNone, VNone, "Unknown")).
    { unfold current_conditions, get. rewrite Hcur. reflexivity. }
    rewrite (main_success rt w st _ _ _ _ _ _ _ _ Hcity Hgeo Hwx C Hopen).
    cbv zeta. cbn [fst snd files trace].
    split; [done |]. split; [| by rewrite lookup_insert_eq].
    intros ev Hev. rewrite !elem_of_app. do 3 right. left.
    unfold summary. cbn [py_str].
    rewrite !elem_of_cons in Hev. rewrite !elem_of_cons.
    destruct Hev as [-> | [-> | [-> | [-> | Hev]]]]; auto 10;
      by apply elem_of_nil in Hev.
  - intros v Hcur Hv.
    assert (C : current_conditions rt (VDict d) =
                Raise (mk_exn AttributeError
                         ("'" +:+ type_name v +:+ "' object has no attribute 'get'"))).
    { unfold current_conditions. cbn [get]. rewrite Hcur. cbn [default from_option id rbind].
      destruct v; try reflexivity. by destruct (Hv d0). }
    by rewrite (main_conditions_raise rt w st _ _ _ _ _ Hcity Hgeo Hwx C eq_refl).
Qed.

Lemma weather_payload_current_witness :
  (main sample_runtime empty_payload_world empty_disk).1 = Ok 0.
Proof.
  assert (H : city_of empty_payload_world ≠ EmptyString) by discriminate.
  exact (proj1 (proj1 (weather_payload_current sample_runtime empty_payload_world
                         empty_disk mumbai_lat mumbai_lon "Mumbai, India" ∅
                         H eq_refl eq_refl eq_refl) eq_refl)).
Defined.

(** X8. When the log cannot be opened the run ends with exit code 5,
    after the summary has been shown: no file is created or changed, and the
    line about the saved file is not printed. *)
Theorem main_log_unwritable (rt : runtime) (w : env) (st : state)
    (lat lon : spec_float) (name : string) (wx temp hum wind : value)
    (condition : string) (e : exn) :
  city_of w ≠ EmptyString →
  geocode_outcome rt w (city_of w) = Ok (Some (lat, lon, name)) →
  weather_outcome w lat lon = Ok wx →
  current_conditions rt wx = Ok (temp, hum, wind, condition) →
  open_append w CSV_PATH = Raise e →
  exn_cls e = OSError →
  main rt w st =
    (Ok 5,
     add_events st
       (prelude w
          ++ [ Get GEO_URL (geo_params (city_of w));
               Get WEATHER_URL (weather_params lat lon) ]
          ++ summary rt name temp hum wind condition
          ++ [Print ("Unexpected error: " +:+ exn_msg e)])).
Proof.
  intros Hcity Hgeo Hwx Hcur Hopen Hcls.
  rewrite (main_run_city rt w st Hcity), try_except_main, main_try_run,
    Hgeo, Hwx, Hcur, Hopen.
  cbv zeta iota beta.
  destruct e as [cls msg]. cbn [exn_cls] in Hcls. subst cls.
  cbn [isinstance]. unfold after_prelude. rewrite !add_events_add.
  cbn [exn_msg]. by rewrite <- ?app_assoc.
Qed.

Lemma main_log_unwritable_witness :
  (main sample_runtime read_only_world empty_disk).1 = Ok 5
  ∧ files (main sample_runtime read_only_world empty_disk).2 = ∅.
Proof.
  assert (H : city_of read_only_world ≠ EmptyString) by discriminate.
  pose proof (main_log_unwritable sample_runtime read_only_world empty_disk
                mumbai_lat mumbai_lon "Mumbai, India" (weather no_code)
                (VInt 30) (VInt 70) (VInt 12) "Unknown"
                (mk_exn OSError "[Errno 13] Permission denied")
                H eq_refl eq_refl eq_refl eq_refl eq_refl) as E.
  rewrite E. split; reflexivity.
Defined.

(** ** The geocoding step *)

Lemma geocode_result_raises_main (rt : runtime) (w : env) (st : state)
    (resp : response) (e : exn) :
  city_of w ≠ EmptyString →
  requests_get w GEO_URL (geo_params (city_of w)) = Ok resp →
  geocode_result rt resp = Raise e →
  isinstance e Exception = true →
  (main rt w st).1 = Ok (except_exit_code e).
Proof.
  intros Hcity Hget Hres Hexn.
  apply (main_geocode_raises rt w st e Hcity); [| exact Hexn].
  unfold geocode_outcome. by rewrite Hget.
Qed.

(** X9. Whatever falsy value the response has under "results" (no key,
    [null], [false], 0, an empty string, list or object), [geocode_city]
    returns [None] and the run ends with exit code 2. *)
Theorem geocode_falsy_results (rt : runtime) (w : env) (st : state)
    (resp : response) (d : gmap string value) :
  city_of w ≠ EmptyString →
  requests_get w GEO_URL (geo_params (city_of w)) = Ok resp →
  raise_for_status resp = Ok tt →
  json resp = Ok (VDict d) →
  truthy (default VNone (d !! "results")) = false →
  (geocode_city rt w (city_of w) (after_prelude w st)).1 = Ok None
  ∧ (main rt w st).1 = Ok 2.
Proof.
  intros Hcity Hget Hstatus Hjson Hfalsy.
  assert (G : geocode_outcome rt w (city_of w) = Ok None).
  { unfold geocode_outcome. rewrite Hget.
    cbn [rbind]. rewrite (geocode_result_dict rt resp d Hstatus Hjson).
    cbv zeta. by rewrite Hfalsy. }
  split; [by rewrite geocode_city_run | by apply main_geocode_none].
Qed.

(** X10. When "results" is truthy but does not start with an object (a
    number, [true], a string, an object, a list of something else),
    [geocode_city] raises a [TypeError], an [AttributeError] or a
    [KeyError], and the run ends with exit code 5, not 2. *)
Theorem geocode_malformed_results (rt : runtime) (w : env) (st : state)
    (resp : response) (d : gmap string value) (v : value) :
  city_of w ≠ EmptyString →
  requests_get w GEO_URL (geo_params (city_of w)) = Ok resp →
  raise_for_status resp = Ok tt →
  json resp = Ok (VDict d) →
  d !! "results" = Some v →
  truthy v = true →
  (∀ r rest, v ≠ VList (VDict r :: rest)) →
  (∃ e, geocode_result rt resp = Raise e
        ∧ exn_cls e ∈ [TypeError; AttributeError; KeyError])
  ∧ (main rt w st).1 = Ok 5.
Proof.
  intros Hcity Hget Hstatus Hjson Hres Htruthy Hshape.
  assert (∃ e, geocode_result rt resp = Raise e
               ∧ exn_cls e ∈ [TypeError; AttributeError; KeyError])
    as (e & He & Hcls).
  { rewrite (geocode_result_dict rt resp d Hstatus Hjson), Hres.
    change (default VNone (Some v)) with v. cbv zeta.
    rewrite Htruthy. cbv iota. rewrite Htruthy. cbn [negb].
    destruct v as [| b | z | f | s | l | m]; try discriminate.
    - eexists. split; [reflexivity |]. set_solver.
    - eexists. split; [reflexivity |]. set_solver.
    - eexists. split; [reflexivity |]. set_solver.
    - destruct s as [| c s]; [discriminate |].
      eexists. split; [reflexivity |]. set_solver.
    - destruct l as [| x l]; [discriminate |].
      destruct x; try (eexists; split; [reflexivity | set_solver]).
      by destruct (Hshape d0 l).
    - eexists. split; [reflexivity |]. set_solver. }
  split; [by exists e |].
  rewrite (geocode_result_raises_main rt w st resp e Hcity Hget He).
  - destruct e as [cls msg]. cbn [exn_cls] in Hcls.
    rewrite !elem_of_cons in Hcls.
    destruct Hcls as [-> | [-> | [-> | Hcls]]]; try reflexivity.
    by apply elem_of_nil in Hcls.
  - destruct e as [cls msg]. cbn [exn_cls] in Hcls.
    rewrite !elem_of_cons in Hcls.
    destruct Hcls as [-> | [-> | [-> | Hcls]]]; try reflexivity.
    by apply elem_of_nil in Hcls.
Qed.

Lemma geocode_result_inv (rt : runtime) (resp : response)
    (lat lon : spec_float) (name : string) :
  geocode_result rt resp = Ok (Some (lat, lon, name)) →
  ∃ d r rest la lo,
    raise_for_status resp = Ok tt
    ∧ json resp = Ok (VDict d)
    ∧ d !! "results" = Some (VList (VDict r :: rest))
    ∧ r !! "latitude" = Some la ∧ r !! "longitude" = Some lo
    ∧ py_float rt la = Ok lat ∧ py_float rt lo = Ok lon
    ∧ name = py_str rt (default (VStr "?") (r !! "name")) +:+ ", "
               +:+ py_str rt (default (VStr "?") (r !! "country")).
Proof.
  unfold geocode_result.
  destruct (raise_for_status resp) as [[] | e]; [| discriminate].
  destruct (json resp) as [data | e]; [| discriminate].
  cbn [rbind].
  destruct data as [| b | z | f | s | l | d]; try discriminate.
  cbn [get rbind].
  destruct (d !! "results") as [v |] eqn:Hres; [| discriminate].
  change (default VNone (Some v)) with v.
  destruct (truthy v) eqn:Htruthy; [| discriminate].
  rewrite Htruthy. cbn [negb].
  destruct v as [| b | z | f | s | l | m]; try discriminate.
  - by destruct s.
  - destruct l as [| x l]; [discriminate |].
    destruct x as [| b | z | f | s | l' | r]; try discriminate.
    cbn [first rbind get getitem].
    destruct (r !! "latitude") as [la |] eqn:Hla; [| discriminate].
    cbn [rbind].
    destruct (py_float rt la) as [lat' | e] eqn:Hlat; [| discriminate].
    cbn [rbind].
    destruct (r !! "longitude") as [lo |] eqn:Hlo; [| discriminate].
    cbn [rbind].
    destruct (py_float rt lo) as [lon' | e] eqn:Hlon; [| discriminate].
    cbn [rbind]. intros [= <- <- <-].
    exists d, r, l, la, lo. by rewrite Hlat, Hlon.
Qed.

Lemma geocode_result_intro (rt : runtime) (resp : response)
    (d r : gmap string value) (rest : list value) (la lo : value)
    (lat lon : spec_float) :
  raise_for_status resp = Ok tt →
  json resp = Ok (VDict d) →
  d !! "results" = Some (VList (VDict r :: rest)) →
  r !! "latitude" = Some la → r !! "longitude" = Some lo →
  py_float rt la = Ok lat → py_float rt lo = Ok lon →
  geocode_result rt resp =
    Ok (Some (lat, lon,
              py_str rt (default (VStr "?") (r !! "name")) +:+ ", "
                +:+ py_str rt (default (VStr "?") (r !! "country")))).
Proof.
  intros Hstatus Hjson Hres Hla Hlo Hlat Hlon.
  rewrite (geocode_result_dict rt resp d Hstatus Hjson), Hres.
  change (default VNone (Some (VList (VDict r :: rest))))
    with (VList (VDict r :: rest)).
  cbv zeta. cbn [truthy negb first rbind get getitem].
  change (bool_decide (VDict r :: rest = [])) with false.
  cbn [negb first rbind get getitem].
  rewrite Hla. cbn [rbind]. rewrite Hlat. cbn [rbind].
  rewrite Hlo. cbn [rbind]. by rewrite Hlon.
Qed.

(** X11. [geocode_city] finds a place exactly when the status is fine,
    the body is an object whose "results" is a list that starts with an
    object, and that object has a "latitude" and a "longitude" that
    [float()] accepts.  Only that first result is used: the name shown is
    its name and country, and whatever follows it in the list is ignored. *)
Theorem geocode_success_iff (rt : runtime) (resp : response)
    (lat lon : spec_float) (name : string) :
  geocode_result rt resp = Ok (Some (lat, lon, name)) ↔
  ∃ d r rest la lo,
    raise_for_status resp = Ok tt
    ∧ json resp = Ok (VDict d)
    ∧ d !! "results" = Some (VList (VDict r :: rest))
    ∧ r !! "latitude" = Some la ∧ r !! "longitude" = Some lo
    ∧ py_float rt la = Ok lat ∧ py_float rt lo = Ok lon
    ∧ name = py_str rt (default (VStr "?") (r !! "name")) +:+ ", "
               +:+ py_str rt (default (VStr "?") (r !! "country")).
Proof.
  split; [apply geocode_result_inv |].
  intros (d & r & rest & la & lo & H1 & H2 & H3 & H4 & H5 & H6 & H7 & ->).
  by apply (geocode_result_intro rt resp d r rest la lo).
Qed.

Lemma quote_field_comma (a b : string) :
  quote_field (a +:+ ", " +:+ b)
  = char DQUOTE +:+ double_quotes (a +:+ ", " +:+ b) +:+ char DQUOTE.
Proof.
  unfold quote_field. rewrite all_chars_app. cbn [all_chars String.append].
  change (negb (special ",")) with false.
  by rewrite andb_false_r.
Qed.

(** X12. The name [geocode_city] returns always holds a comma followed
    by a space, so the log always writes the city between quotes. *)
Theorem geocode_name_is_quoted (rt : runtime) (resp : response)
    (lat lon : spec_float) (name : string) :
  geocode_result rt resp = Ok (Some (lat, lon, name)) →
  (∃ place country, name = place +:+ ", " +:+ country)
  ∧ quote_field name = char DQUOTE +:+ double_quotes name +:+ char DQUOTE.
Proof.
  intros H.
  apply geocode_result_inv in H
    as (d & r & rest & la & lo & _ & _ & _ & _ & _ & _ & _ & ->).
  split; [eauto | apply quote_field_comma].
Qed.

(** ** More on the log file *)

Lemma concat_lines_app (a b : list string) :
  concat_lines (a ++ b) = concat_lines a +:+ concat_lines b.
Proof.
  induction a as [| x a IH]; [done |].
  cbn [app concat_lines]. change ((x :: a) ++ b)%list with (x :: (a ++ b))%list.
  cbn [concat_lines]. by rewrite IH, append_assoc.
Qed.

Lemma log_of_snoc (rows : list (list string)) (fields : list string) :
  log_of rows +:+ record_line fields = log_of (rows ++ [fields]).
Proof.
  unfold log_of.
  change (fieldnames :: rows ++ [fields])%list
    with ((fieldnames :: rows) ++ [fields])%list.
  rewrite fmap_app, concat_lines_app. cbn [fmap list_fmap concat_lines].
  by rewrite append_nil_r.
Qed.

Lemma dict_to_list_valid (rt : runtime) (rowdict : gmap string value) :
  dom rowdict ⊆ list_to_set (C := gset string) fieldnames →
  ∃ fields, dict_to_list rowdict = Ok fields
            ∧ cell rt <$> fields = cells_of rt rowdict.
Proof.
  intros H. unfold dict_to_list. rewrite bool_decide_true by done.
  eexists. split; [reflexivity |]. unfold cells_of. by rewrite <- list_fmap_compose.
Qed.

(** X13. A log that holds the header and some records still does after
    [save_to_csv], with one more record of eight fields at its end, whatever
    keys of the header the row dictionary has: a key that is missing and a
    value that is [None] both give an empty field.  A missing file counts as
    a log without records. *)
Theorem save_to_csv_keeps_log (rt : runtime) (w : env)
    (rowdict : gmap string value) (path : string) (st : state)
    (rows : list (list string)) :
  open_append w path = Ok tt →
  dom rowdict ⊆ list_to_set (C := gset string) fieldnames →
  (files st !! path = None ∧ rows = []) ∨ files st !! path = Some (log_of rows) →
  (save_to_csv rt w rowdict path st).1 = Ok tt
  ∧ files (save_to_csv rt w rowdict path st).2 !! path
    = Some (log_of (rows ++ [cells_of rt rowdict]))
  ∧ csv_reader (log_of (rows ++ [cells_of rt rowdict]))
    = (fieldnames :: rows ++ [cells_of rt rowdict])%list
  ∧ length (cells_of rt rowdict) = 8%nat
  ∧ (∀ i key, fieldnames !! i = Some key →
       rowdict !! key = None ∨ rowdict !! key = Some VNone →
       cells_of rt rowdict !! i = Some EmptyString).
Proof.
  intros Hopen Hkeys Hlog.
  destruct (dict_to_list_valid rt rowdict Hkeys) as (fields & Hfields & Hcells).
  rewrite (save_to_csv_run rt w rowdict fields path st Hopen Hfields).
  cbv zeta. cbn [fst snd files]. rewrite Hcells, lookup_insert_eq.
  split; [done |]. split; [| split; [| split]].
  - destruct Hlog as [[-> ->] | ->]; cbn [log_text].
    + by rewrite <- log_of_snoc.
    + by rewrite log_of_snoc.
  - apply (csv_reader_record_lines (fieldnames :: rows ++ [cells_of rt rowdict])).
  - reflexivity.
  - intros i key Hi Hmissing. unfold cells_of.
    rewrite list_lookup_fmap, Hi. cbn [fmap option_fmap option_map].
    by destruct Hmissing as [-> | ->].
Qed.

(** X14. A row dictionary with a key that is not a column makes
    [save_to_csv] raise a [ValueError] without writing the row; by then a
    file that was missing has been created and holds the header alone, and a
    file that was there is as it was. *)
Theorem save_to_csv_foreign_key (rt : runtime) (w : env)
    (rowdict : gmap string value) (path : string) (st : state) :
  open_append w path = Ok tt →
  ¬ dom rowdict ⊆ list_to_set (C := gset string) fieldnames →
  (∃ msg, (save_to_csv rt w rowdict path st).1 = Raise (mk_exn ValueError msg))
  ∧ files (save_to_csv rt w rowdict path st).2 !! path
    = Some (default header_line (files st !! path))
  ∧ (∀ other, other ≠ path →
       files (save_to_csv rt w rowdict path st).2 !! other = files st !! other).
Proof.
  intros Hopen Hkeys.
  assert (R : dict_to_list rowdict
              = Raise (mk_exn ValueError "dict contains fields not in fieldnames"))
    by (unfold dict_to_list; by rewrite bool_decide_false).
  unfold save_to_csv, bind, exists_, open_a, lift, writeheader, ret.
  rewrite Hopen.
  destruct (files st !! path) as [old |] eqn:E; simpl.
  - unfold writerow, bind, lift. rewrite R. cbn [fst snd files].
    split; [eauto |]. rewrite E.
    split; [by simplify_map_eq | intros other Hne; by simplify_map_eq].
  - rewrite (writerow_run rt _ _ _ _ dict_to_list_header). simpl.
    unfold writerow, bind, lift. rewrite R. cbn [fst snd files].
    split; [eauto |]. rewrite E.
    split; [by simplify_map_eq | intros other Hne; by simplify_map_eq].
Qed.

(** ** More on the condition decoder *)

Lemma mapping_lookup_table (z : Z) :
  z ∈ table_codes → ∃ phrase, mapping !! z = Some phrase.
Proof.
  intros H.
  repeat (apply elem_of_cons in H as [-> | H]; [eexists; reflexivity |]).
  by apply elem_of_nil in H.
Qed.

Lemma decode_weather_code_by_value (rt : runtime) (code : value) (z : Z) :
  py_int rt code = Ok z →
  (z ∈ table_codes → decode_weather_code rt code = decode_weather_code rt (VInt z))
  ∧ (z ∉ table_codes →
       decode_weather_code rt code = Ok ("Unknown (" +:+ py_str rt code +:+ ")")).
Proof.
  intros H. unfold decode_weather_code. rewrite H. cbn [py_int rbind]. split.
  - intros Hz. destruct (mapping_lookup_table z Hz) as [phrase ->]. done.
  - intros Hz. by rewrite (mapping_lookup_None z Hz).
Qed.

(** X15. The decoder looks a code up by its integer value and shows it
    as it was given.  A finite float is truncated towards zero, [True] and
    [False] are 1 and 0, a string goes through [int()]; a code whose value
    is not in the table is shown in the text as it was given, not as the
    integer.  [None], a list and an object raise a [TypeError], a NaN or a
    string that is no integer a [ValueError], an infinity an
    [OverflowError]. *)
Theorem decode_weather_code_other_values (rt : runtime) :
  (∀ s m e, trunc_float s m e ∈ table_codes →
     decode_weather_code rt (VFloat (S754_finite s m e))
     = decode_weather_code rt (VInt (trunc_float s m e)))
  ∧ (∀ s m e, trunc_float s m e ∉ table_codes →
     decode_weather_code rt (VFloat (S754_finite s m e))
     = Ok ("Unknown (" +:+ repr rt (VFloat (S754_finite s m e)) +:+ ")"))
  ∧ (∀ b, decode_weather_code rt (VBool b)
          = Ok (if b then "Mainly clear" else "Clear sky"))
  ∧ (∀ text z, int_of_str rt text = Some z →
     (z ∈ table_codes →
        decode_weather_code rt (VStr text) = decode_weather_code rt (VInt z))
     ∧ (z ∉ table_codes →
        decode_weather_code rt (VStr text) = Ok ("Unknown (" +:+ text +:+ ")")))
  ∧ (∀ code, code = VNone ∨ (∃ l, code = VList l) ∨ (∃ d, code = VDict d) →
       ∃ e, decode_weather_code rt code = Raise e ∧ exn_cls e = TypeError)
  ∧ (∀ code, code = VFloat S754_nan
             ∨ (∃ text, code = VStr text ∧ int_of_str rt text = None) →
       ∃ e, decode_weather_code rt code = Raise e ∧ exn_cls e = ValueError)
  ∧ (∀ s, ∃ e, decode_weather_code rt (VFloat (S754_infinity s)) = Raise e
               ∧ exn_cls e = OverflowError).
Proof.
  split; [| split; [| split; [| split; [| split; [| split]]]]].
  - intros s m e. by apply (decode_weather_code_by_value rt (VFloat _)).
  - intros s m e. by apply (decode_weather_code_by_value rt (VFloat _)).
  - by intros [].
  - intros text z H. apply (decode_weather_code_by_value rt (VStr text)).
    cbn [py_int]. by rewrite H.
  - intros code [-> | [[l ->] | [d ->]]]; eexists; split; reflexivity.
  - intros code [-> | (text & -> & H)].
    + eexists. split; reflexivity.
    + unfold decode_weather_code. cbn [py_int]. rewrite H.
      eexists. split; reflexivity.
  - intros s. eexists. split; reflexivity.
Qed.

(** 2.9 is code 2, -0.5 is code 0, and 100.5 is no code. *)
Example decode_floats :
  decode_weather_code sample_runtime (VFloat (S754_finite false 6530219459687219 (-51)))
    = Ok "Partly cloudy"
  ∧ decode_weather_code sample_runtime (VFloat (S754_finite true 1 (-1)))
    = Ok "Clear sky"
  ∧ decode_weather_code sample_runtime (VFloat (S754_finite false 201 (-1)))
    = Ok "Unknown (<repr>)".
Proof. repeat split; vm_compute; reflexivity. Qed.




(** ** Exit codes 0 and 2, and running twice *)

Lemma main_ok_0 (rt : runtime) (w : env) (st : state) :
  (main rt w st).1 = Ok 0 →
  prompt_failure w = None ∧ city_of w ≠ EmptyString
  ∧ ∃ lat lon name wx temp hum wind condition,
      geocode_outcome rt w (city_of w) = Ok (Some (lat, lon, name))
      ∧ weather_outcome w lat lon = Ok wx
      ∧ current_conditions rt wx = Ok (temp, hum, wind, condition)
      ∧ open_append w CSV_PATH = Ok tt.
Proof.
  main_cases rt w st; cbn [fst]; try discriminate.
  - intros _. split; [done |]. split; [by apply String.eqb_neq |].
    by exists lat, lon, name, wx, temp, hum, wind, cond.
  - intros [= H]. pose proof (except_exit_code_range e). lia.
  - intros [= H]. pose proof (except_exit_code_range e). lia.
  - intros [= H]. pose proof (except_exit_code_range e). lia.
  - intros [= H]. pose proof (except_exit_code_range e). lia.
Qed.

Lemma main_ok_2 (rt : runtime) (w : env) (st : state) :
  (main rt w st).1 = Ok 2 →
  prompt_failure w = None ∧ city_of w ≠ EmptyString
  ∧ geocode_outcome rt w (city_of w) = Ok None.
Proof.
  main_cases rt w st; cbn [fst]; try discriminate.
  - intros [= H]. pose proof (except_exit_code_range e). lia.
  - intros [= H]. pose proof (except_exit_code_range e). lia.
  - intros [= H]. pose proof (except_exit_code_range e). lia.
  - intros _. split; [done |]. split; [by apply String.eqb_neq | done].
  - intros [= H]. pose proof (except_exit_code_range e). lia.
Qed.

(** X17. What an exit code of 2 or 0 tells about the run.  After exit
    code 2 the geocoder has answered, without raising, that it found
    nothing, nothing was asked of the weather service and no file has
    changed.  After exit code 0 the geocoder, the weather service, the
    reading of the payload and the opening of the log have all succeeded,
    and the log ends with the line of this run. *)
Theorem main_exit_0_and_2 (rt : runtime) (w : env) (st : state) :
  ((main rt w st).1 = Ok 2 →
     prompt_failure w = None ∧ city_of w ≠ EmptyString
     ∧ geocode_outcome rt w (city_of w) = Ok None
     ∧ List.filter is_get (new_events st (main rt w st).2)
       = [Get GEO_URL (geo_params (city_of w))]
     ∧ files (main rt w st).2 = files st)
  ∧ ((main rt w st).1 = Ok 0 →
     prompt_failure w = None ∧ city_of w ≠ EmptyString
     ∧ ∃ lat lon name wx temp hum wind condition,
         geocode_outcome rt w (city_of w) = Ok (Some (lat, lon, name))
         ∧ weather_outcome w lat lon = Ok wx
         ∧ current_conditions rt wx = Ok (temp, hum, wind, condition)
         ∧ open_append w CSV_PATH = Ok tt
         ∧ files (main rt w st).2 !! CSV_PATH
           = Some (log_text (files st !! CSV_PATH)
                     (record_line
                        [ now_local w; name; format_4f lat; format_4f lon;
                          cell rt temp; cell rt hum; cell rt wind;
                          condition ]))).
Proof.
  split.
  - intros H. destruct (main_ok_2 rt w st H) as (Hprompt & Hcity & Hgeo).
    split; [done |]. split; [done |]. split; [done |].
    rewrite (main_run_city rt w st Hcity), try_except_main, main_try_run, Hgeo.
    cbv zeta iota beta. unfold after_prelude. rewrite !add_events_add.
    cbn [snd]. rewrite new_events_add. split; [| done].
    unfold prelude. by destruct (1 <? length (argv w))%nat.
  - intros H.
    destruct (main_ok_0 rt w st H)
      as (Hprompt & Hcity & lat & lon & name & wx & temp & hum & wind & cond
          & Hgeo & Hwx & Hcur & Hopen).
    split; [done |]. split; [done |].
    exists lat, lon, name, wx, temp, hum, wind, cond.
    rewrite (main_success rt w st _ _ _ _ _ _ _ _ Hcity Hgeo Hwx Hcur Hopen).
    cbv zeta. cbn [snd files]. by rewrite lookup_insert_eq.
Qed.

Lemma main_ok_0_files (rt : runtime) (w : env) (st : state) :
  (main rt w st).1 = Ok 0 →
  ∃ fields, length fields = 8%nat
    ∧ files (main rt w st).2
      = <[CSV_PATH := log_text (files st !! CSV_PATH) (record_line fields)]>
          (files st).
Proof.
  intros H.
  destruct (main_ok_0 rt w st H)
    as (_ & Hcity & lat & lon & name & wx & temp & hum & wind & cond
        & Hgeo & Hwx & Hcur & Hopen).
  rewrite (main_success rt w st _ _ _ _ _ _ _ _ Hcity Hgeo Hwx Hcur Hopen).
  cbv zeta. cbn [snd files]. eexists. split; [| reflexivity]. reflexivity.
Qed.

(** X18. Two successful runs, one after the other and in whatever
    worlds, leave a log that began as no file with the header and two
    records of eight fields, and a log that was there with two more records
    after what it held: the second run adds no header. *)
Theorem main_twice (rt : runtime) (w1 w2 : env) (st : state) :
  (main rt w1 st).1 = Ok 0 →
  (main rt w2 (main rt w1 st).2).1 = Ok 0 →
  ∃ fields1 fields2,
    length fields1 = 8%nat ∧ length fields2 = 8%nat
    ∧ files (main rt w2 (main rt w1 st).2).2 !! CSV_PATH
      = Some (log_text (files st !! CSV_PATH)
                (record_line fields1 +:+ record_line fields2))
    ∧ (files st !! CSV_PATH = None →
       ∃ content,
         files (main rt w2 (main rt w1 st).2).2 !! CSV_PATH = Some content
         ∧ csv_reader content = [fieldnames; fields1; fields2]).
Proof.
  intros H1 H2.
  destruct (main_ok_0_files rt w1 st H1) as (fields1 & L1 & F1).
  destruct (main_ok_0_files rt w2 _ H2) as (fields2 & L2 & F2).
  exists fields1, fields2. split; [done |]. split; [done |].
  assert (E : files (main rt w2 (main rt w1 st).2).2 !! CSV_PATH
              = Some (log_text (files st !! CSV_PATH)
                        (record_line fields1 +:+ record_line fields2))).
  { rewrite F2, lookup_insert_eq, F1, lookup_insert_eq. by rewrite log_text_app. }
  split; [exact E |].
  intros Hfresh. eexists. split; [exact E |].
  rewrite Hfresh. cbn [log_text].
  pose proof (csv_reader_record_lines [fieldnames; fields1; fields2]) as R.
  cbn [fmap list_fmap concat_lines] in R. by rewrite append_nil_r in R.
Qed.

(** X19. [geocode_city] sends one request, to the geocoding endpoint, and
    touches no file.  A failure of the request comes out as it is; a bad
    status comes out before the body is looked at, and so does a body that
    cannot be decoded; a body that is not an object raises an
    [AttributeError]. *)
Theorem geocode_city_failures (rt : runtime) (w : env) (city : string)
    (st : state) :
  files (geocode_city rt w city st).2 = files st
  ∧ new_events st (geocode_city rt w city st).2
    = [Get GEO_URL [("name", VStr city); ("count", VInt 1); ("language", VStr "en")]]
  ∧ (∀ e, requests_get w GEO_URL (geo_params city) = Raise e →
       (geocode_city rt w city st).1 = Raise e)
  ∧ (∀ resp e, requests_get w GEO_URL (geo_params city) = Ok resp →
       raise_for_status resp = Raise e →
       (geocode_city rt w city st).1 = Raise e)
  ∧ (∀ resp e, requests_get w GEO_URL (geo_params city) = Ok resp →
       raise_for_status resp = Ok tt → json resp = Raise e →
       (geocode_city rt w city st).1 = Raise e)
  ∧ (∀ resp data, requests_get w GEO_URL (geo_params city) = Ok resp →
       raise_for_status resp = Ok tt → json resp = Ok data →
       (∀ d, data ≠ VDict d) →
       ∃ e, (geocode_city rt w city st).1 = Raise e
            ∧ exn_cls e = AttributeError).
Proof.
  rewrite geocode_city_run. cbn [fst snd]. unfold geocode_outcome, geocode_result.
  split; [done |]. split; [apply new_events_add |].
  split; [| split; [| split]].
  - by intros e ->.
  - intros resp e H1 H2. rewrite H1. cbn [rbind]. by rewrite H2.
  - intros resp e H1 H2 H3. rewrite H1. cbn [rbind]. by rewrite H2, H3.
  - intros resp data H1 H2 H3 Hshape. rewrite H1. cbn [rbind].
    rewrite H2, H3. cbn [rbind].
    destruct data; try (eexists; split; reflexivity).
    by destruct (Hshape d).
Qed.

(** ** Runs that show the further properties *)

Lemma geocode_falsy_results_witness :
  (main sample_runtime false_results_world empty_disk).1 = Ok 2.
Proof.
  assert (H : city_of false_results_world ≠ EmptyString) by discriminate.
  exact (proj2 (geocode_falsy_results sample_runtime false_results_world
                  empty_disk
                  {| raise_for_status := Ok tt;
                     json := Ok (VDict {[ "results" := VBool false ]}) |}
                  {[ "results" := VBool false ]}
                  H eq_refl eq_refl eq_refl eq_refl)).
Defined.

Lemma geocode_malformed_results_witness :
  (main sample_runtime text_results_world empty_disk).1 = Ok 5.
Proof.
  assert (H : city_of text_results_world ≠ EmptyString) by discriminate.
  exact (proj2 (geocode_malformed_results sample_runtime text_results_world
                  empty_disk
                  {| raise_for_status := Ok tt;
                     json := Ok (VDict {[ "results" := VStr "none" ]}) |}
                  {[ "results" := VStr "none" ]} (VStr "none")
                  H eq_refl eq_refl eq_refl eq_refl eq_refl
                  ltac:(discriminate))).
Defined.

Lemma geocode_name_is_quoted_witness :
  quote_field "Mumbai, India"
  = char DQUOTE +:+ double_quotes "Mumbai, India" +:+ char DQUOTE.
Proof.
  exact (proj2 (geocode_name_is_quoted sample_runtime
                  {| raise_for_status := Ok tt; json := Ok mumbai |}
                  mumbai_lat mumbai_lon "Mumbai, India" eq_refl)).
Defined.

Lemma save_to_csv_keeps_log_witness :
  csv_reader (log_of [cells_of sample_runtime {[ "city" := VStr "Pune" ]}])
  = [ fieldnames;
      [ EmptyString; "Pune"; EmptyString; EmptyString; EmptyString;
        EmptyString; EmptyString; EmptyString ] ].
Proof.
  exact (proj1 (proj2 (proj2
           (save_to_csv_keeps_log sample_runtime nowhere_world
              {[ "city" := VStr "Pune" ]} CSV_PATH disk_with_log []
              eq_refl ltac:(apply (bool_decide_unpack _); vm_compute; exact I)
              (or_intror eq_refl))))).
Defined.

Lemma save_to_csv_foreign_key_witness :
  files (save_to_csv sample_runtime nowhere_world {[ "town" := VStr "Pune" ]}
           CSV_PATH empty_disk).2 !! CSV_PATH
  = Some header_line.
Proof.
  exact (proj1 (proj2
           (save_to_csv_foreign_key sample_runtime nowhere_world
              {[ "town" := VStr "Pune" ]} CSV_PATH empty_disk
              eq_refl ltac:(apply (bool_decide_unpack _); vm_compute; exact I)))).
Defined.


Lemma main_twice_witness :
  ∃ content,
    files (main sample_runtime (mumbai_world no_code)
             (main sample_runtime (mumbai_world no_code) empty_disk).2).2
      !! CSV_PATH = Some content
    ∧ length (csv_reader content) = 3%nat.
Proof.
  destruct (main_twice sample_runtime (mumbai_world no_code) (mumbai_world no_code)
              empty_disk eq_refl eq_refl)
    as (fields1 & fields2 & _ & _ & _ & Hfresh).
  destruct (Hfresh eq_refl) as (content & Hfile & Hread).
  exists content. split; [exact Hfile |]. by rewrite Hread.
Defined.

